(** * The Python service client of the workflow engine, and its correlation
      middleware

    A shallow embedding of

    - [examples/python_client/correlation_middleware.py]: the FastAPI
      middleware that gives every request a correlation identifier, and
      [inject_correlation_id_header] for outgoing requests;
    - [examples/python_client/ai_workflow_client.py]: [AIWorkflowClient],
      the client that registers a service with the registry, sends its
      heartbeats, discovers services and calls them;
    - [examples/python_client/ai_tutor_service.py]: the handlers of the
      example service that use the client, and its generators of examples
      and questions.

    Python objects are modelled by the value type [PyVal], exceptions by
    their class and message, the client object and its surroundings by
    explicit state, and the network by an oracle that answers each request
    issued through the session.  The registry itself (the Rust core) is not
    among the Python sources; the part of it that the heartbeat ordering
    guarantee speaks of is modelled from the specification in the module
    [RegistryStore]. *)

From stdpp Require Import base option list strings gmap pretty.
From Stdlib Require Import ZArith Lia Ascii String.

Local Open Scope string_scope.
Local Open Scope Z_scope.
Local Set Warnings "-register-all".

(** ** Python values *)

(** The values that cross the client's interfaces: what [response.json()]
    decodes, and what is handed to [json=] of a request.  A [dict] is kept as
    its list of items (keys are unique in a Python dict; lookup takes the first
    item with the key).  [PDatetime] is a [datetime] object, counted in
    microseconds since the epoch. *)
Inductive PyVal : Type :=
  | PNone
  | PBool (b : bool)
  | PInt (n : Z)
  | PStr (s : string)
  | PList (l : list PyVal)
  | PDict (items : list (string * PyVal))
  | PDatetime (t : Z).

(** ** Exceptions *)

(** The exception classes that the modelled code raises, catches or lets
    through: the client's own, those of aiohttp, asyncio, json and pydantic,
    and the builtins behind attribute access, subscripting and iteration.
    [CancelledError], [KeyboardInterrupt], [SystemExit] and [GeneratorExit]
    derive from [BaseException] directly, so they have no base among these
    classes and are not an [Exception]: [except Exception] lets them pass. *)
Inductive ExnClass : Type :=
  | Exception
  | CancelledError          (* asyncio.CancelledError *)
  | KeyboardInterrupt
  | SystemExit              (* raised by sys.exit *)
  | GeneratorExit
  | TimeoutError            (* asyncio.TimeoutError *)
  | ValueError
  | TypeError
  | AttributeError
  | LookupError
  | KeyError
  | JSONDecodeError         (* json.JSONDecodeError *)
  | ValidationError         (* pydantic.ValidationError *)
  | ClientError             (* aiohttp.ClientError *)
  | ClientConnectionError
  | ServerConnectionError
  | ServerTimeoutError
  | ClientResponseError
  | ContentTypeError
  | ClientPayloadError
  | AIWorkflowError
  | RegistrationError
  | HeartbeatError
  | ServiceDiscoveryError.

#[global] Instance ExnClass_eq_dec : EqDecision ExnClass.
Proof. solve_decision. Defined.

(** The direct base classes of each class, as the libraries declare them. *)
Definition bases (c : ExnClass) : list ExnClass :=
  match c with
  | Exception => []
  | CancelledError => []
  | KeyboardInterrupt => []
  | SystemExit => []
  | GeneratorExit => []
  | TimeoutError => [Exception]
  | ValueError => [Exception]
  | TypeError => [Exception]
  | AttributeError => [Exception]
  | LookupError => [Exception]
  | KeyError => [LookupError]
  | JSONDecodeError => [ValueError]
  | ValidationError => [ValueError]
  | ClientError => [Exception]
  | ClientConnectionError => [ClientError]
  | ServerConnectionError => [ClientConnectionError]
  | ServerTimeoutError => [ServerConnectionError; TimeoutError]
  | ClientResponseError => [ClientError]
  | ContentTypeError => [ClientResponseError]
  | ClientPayloadError => [ClientError]
  | AIWorkflowError => [Exception]
  | RegistrationError => [AIWorkflowError]
  | HeartbeatError => [AIWorkflowError]
  | ServiceDiscoveryError => [AIWorkflowError]
  end.

(** [issubclass c d], by a search of the bases of bounded depth (the
    hierarchy above is four levels deep). *)
Fixpoint issubclass_upto (depth : nat) (c d : ExnClass) : bool :=
  bool_decide (c = d) ||
  match depth with
  | O => false
  | S k => existsb (fun b => issubclass_upto k b d) (bases c)
  end.

Definition issubclass (c d : ExnClass) : bool := issubclass_upto 6 c d.

(** A raised exception: its class and [str(e)]. *)
Record Exn : Type := mkExn { exn_class : ExnClass; exn_msg : string }.

Definition isinstance (e : Exn) (c : ExnClass) : bool :=
  issubclass (exn_class e) c.

(** ** Strings and header collections *)

Definition lower_ascii (c : ascii) : ascii :=
  let n := nat_of_ascii c in
  if ((65 <=? n) && (n <=? 90))%nat then ascii_of_nat (n + 32) else c.

(** [str.lower] on header names. *)
Fixpoint lower (s : string) : string :=
  match s with
  | EmptyString => EmptyString
  | String c r => String (lower_ascii c) (lower r)
  end.

Fixpoint string_forallb (p : ascii -> bool) (s : string) : bool :=
  match s with
  | EmptyString => true
  | String c r => p c && string_forallb p r
  end.

Fixpoint string_mem (c : ascii) (s : string) : bool :=
  match s with
  | EmptyString => false
  | String d r => bool_decide (c = d) || string_mem c r
  end.

(** Starlette's [Headers]: the raw list of (name, value) pairs; a lookup
    ignores the case of the name and returns the first match. *)
Definition Headers : Type := list (string * string).

Fixpoint headers_get (key : string) (hs : Headers) : option string :=
  match hs with
  | [] => None
  | (k, v) :: r =>
      if bool_decide (lower k = lower key) then Some v else headers_get key r
  end.

(** Starlette's [MutableHeaders.__setitem__]: the first entry of that name
    is replaced, later ones are deleted, and the entry is appended when there
    was none. *)
Definition headers_remove (key : string) (hs : Headers) : Headers :=
  filter (fun kv => lower kv.1 <> lower key) hs.

Fixpoint headers_set (key value : string) (hs : Headers) : Headers :=
  match hs with
  | [] => [(lower key, value)]
  | (k, v) :: r =>
      if bool_decide (lower k = lower key)
      then (lower key, value) :: headers_remove key r
      else (k, v) :: headers_set key value r
  end.

(** ** The surroundings of the code *)

Inductive HttpMethod : Type := GET | POST.

(** One call of [session.get] or [session.post]: the arguments it was
    given. *)
Record HttpCall : Type := mkHttpCall {
  call_method : HttpMethod;
  call_url : string;
  call_params : gmap string string;
  call_json : option PyVal;
  call_headers : gmap string string;
}.

Inductive LogLevel : Type := INFO | WARNING | ERROR.

(** A record that reaches the log.  Both modules log at level INFO, so the
    [debug] calls of the source emit nothing and are left out; the pictographs
    that open some messages are left out as well. *)
Record LogRecord : Type := mkLog { log_level : LogLevel; log_text : string }.

(** What the code reads and writes besides the object it is a method of:
    the context variable [correlation_id_ctx], the calls made through the
    session so far, the clock, the number of identifiers drawn and of sleeps
    started, and the log. *)
Record World : Type := mkWorld {
  correlation_id_ctx : option string;
  w_calls : list HttpCall;
  w_now : Z;
  w_draws : nat;
  w_sleeps : nat;
  w_logs : list LogRecord;
}.

Definition set_ctx (v : option string) (w : World) : World :=
  mkWorld v (w_calls w) (w_now w) (w_draws w) (w_sleeps w) (w_logs w).
Definition add_call (c : HttpCall) (w : World) : World :=
  mkWorld (correlation_id_ctx w) (w_calls w ++ [c]) (w_now w) (w_draws w)
    (w_sleeps w) (w_logs w).
Definition set_now (t : Z) (w : World) : World :=
  mkWorld (correlation_id_ctx w) (w_calls w) t (w_draws w) (w_sleeps w)
    (w_logs w).
Definition add_draw (w : World) : World :=
  mkWorld (correlation_id_ctx w) (w_calls w) (w_now w) (S (w_draws w))
    (w_sleeps w) (w_logs w).
Definition add_sleep (w : World) : World :=
  mkWorld (correlation_id_ctx w) (w_calls w) (w_now w) (w_draws w)
    (S (w_sleeps w)) (w_logs w).
Definition add_log (l : LogLevel) (m : string) (w : World) : World :=
  mkWorld (correlation_id_ctx w) (w_calls w) (w_now w) (w_draws w)
    (w_sleeps w) (w_logs w ++ [mkLog l m]).

(** ** The pydantic models of the client *)

Record ServiceConfig : Type := mkServiceConfig {
  name : string;
  endpoint : string;
  capabilities : list string;
  registry_endpoint : string;
  auth_token : option string;
  heartbeat_interval : Z;
  metadata : list (string * PyVal);
  service_type : string;
}.

Record RegistrationRequest : Type := mkRegistrationRequest {
  rq_name : string;
  rq_endpoint : string;
  rq_capabilities : list string;
  rq_metadata : list (string * PyVal);
}.

Record HeartbeatRequest : Type := mkHeartbeatRequest {
  hb_timestamp : Z;
  hb_status : option string;
  hb_metadata : option (list (string * PyVal));
}.

Record RegistrationResponse : Type := mkRegistrationResponse {
  id : string;
  rs_name : string;
  rs_endpoint : string;
  rs_capabilities : list string;
  rs_status : string;
  rs_last_seen : Z;
  rs_metadata : list (string * PyVal);
  rs_created_at : Z;
  rs_updated_at : Z;
}.

(** [model.dict()] *)
Definition RegistrationRequest_dict (r : RegistrationRequest) : PyVal :=
  PDict [("name", PStr (rq_name r));
         ("endpoint", PStr (rq_endpoint r));
         ("capabilities", PList (PStr <$> rq_capabilities r));
         ("metadata", PDict (rq_metadata r))].

Definition HeartbeatRequest_dict (h : HeartbeatRequest) : PyVal :=
  PDict [("timestamp", PDatetime (hb_timestamp h));
         ("status", from_option PStr PNone (hb_status h));
         ("metadata", from_option PDict PNone (hb_metadata h))].

(** ** Library behaviour the sources rely on *)

(** Functions of the Python libraries whose results the code only passes on.
    A [uuid.UUID] object is represented by its 128-bit integer. *)
Class PyLib : Type := {
  (** [uuid.UUID(s)]; [None] when it raises [ValueError] *)
  UUID_of_str : string -> option N;
  (** [str(u)] of a [UUID] *)
  str_of_UUID : N -> string;
  (** the [n]-th value drawn by [uuid.uuid4()] *)
  uuid4 : nat -> N;
  (** [repr(v)], which is what an f-string prints for a value that is not a
      string *)
  py_repr : PyVal -> string;
  (** pydantic's validation of the keyword arguments of
      [RegistrationResponse(...)]; [None] when it raises [ValidationError] *)
  RegistrationResponse_validate :
    list (string * PyVal) -> option RegistrationResponse;
}.

(** [str(v)], as an f-string formats a value. *)
Definition py_str `{PyLib} (v : PyVal) : string :=
  match v with
  | PStr s => s
  | _ => py_repr v
  end.

(** ** correlation_middleware.py *)

Module correlation_middleware.

(** Common header names for correlation IDs *)
Definition CORRELATION_ID_HEADERS : list string :=
  ["X-Correlation-ID"; "X-Request-ID"; "X-Trace-ID"; "Correlation-ID";
   "Request-ID"].

(** The parts of a Starlette request and response that the middleware
    touches. *)
Record Request : Type := mkRequest {
  req_path : string;
  req_headers : Headers;
  req_state_correlation_id : option string;
}.

Record Response : Type := mkResponse {
  resp_status : Z;
  resp_headers : Headers;
  resp_body : string;
}.

(** The rest of the application, [call_next]: it answers the request or
    raises. *)
Definition App : Type := Request -> World -> (Exn + Response) * World.

(** The attributes of a [CorrelationIdMiddleware].  The generator is a
    function of the number of identifiers drawn before. *)
Record CorrelationIdMiddleware : Type := mkMiddleware {
  header_name : string;
  generator : nat -> string;
  validate : bool;
}.

Definition _generate_correlation_id `{PyLib} (n : nat) : string :=
  str_of_UUID (uuid4 n).

(** [__init__], with its defaults. *)
Definition init `{PyLib} (header_name : option string)
    (generator : option (nat -> string)) (validate : option bool)
    : CorrelationIdMiddleware :=
  mkMiddleware (default "X-Correlation-ID" header_name)
               (default _generate_correlation_id generator)
               (default true validate).

Definition allowed_chars : string :=
  "abcdefghijklmnopqrstuvwxyzABCDEFGHIJKLMNOPQRSTUVWXYZ0123456789-_.".

Definition _is_valid_correlation_id (correlation_id : string) : bool :=
  if bool_decide (correlation_id = "") then false
  else if ((String.length correlation_id <? 1)
           || (128 <? String.length correlation_id))%nat then false
  else string_forallb (fun c => string_mem c allowed_chars) correlation_id.

(** The loop of [_get_correlation_id_from_request] over the header names
    still to try. *)
Fixpoint get_from_headers (self : CorrelationIdMiddleware)
    (request : Request) (names : list string) (w : World)
    : option string * World :=
  match names with
  | [] => (None, w)
  | header :: rest =>
      match headers_get header (req_headers request) with
      | Some correlation_id =>
          if bool_decide (correlation_id = "")
          then get_from_headers self request rest w
          else if validate self
                  && negb (_is_valid_correlation_id correlation_id)
          then (None,
                add_log WARNING
                  ("Invalid correlation ID received: " ++ correlation_id) w)
          else (Some correlation_id, w)
      | None => get_from_headers self request rest w
      end
  end.

Definition _get_correlation_id_from_request (self : CorrelationIdMiddleware)
    (request : Request) (w : World) : option string * World :=
  get_from_headers self request CORRELATION_ID_HEADERS w.

Definition dispatch (self : CorrelationIdMiddleware) (request : Request)
    (call_next : App) (w : World) : (Exn + Response) * World :=
  let '(found, w) := _get_correlation_id_from_request self request w in
  let '(correlation_id, w) :=
    match found with
    | Some c => (c, w)
    | None => (generator self (w_draws w), add_draw w)
    end in
  let w := set_ctx (Some correlation_id) w in
  let request :=
    mkRequest (req_path request) (req_headers request)
              (Some correlation_id) in
  match call_next request w with
  | (inr response, w) =>
      (inr (mkResponse (resp_status response)
              (headers_set (header_name self) correlation_id
                 (resp_headers response))
              (resp_body response)), w)
  | (inl e, w) => (inl e, w)
  end.

Definition get_correlation_id (w : World) : option string :=
  correlation_id_ctx w.

Definition set_correlation_id (correlation_id : string) (w : World) : World :=
  set_ctx (Some correlation_id) w.

Definition inject_correlation_id_header (headers : gmap string string)
    (correlation_id : option string) (w : World) : gmap string string :=
  let correlation_id :=
    match correlation_id with
    | None => get_correlation_id w
    | Some c => Some c
    end in
  match correlation_id with
  | Some c =>
      if bool_decide (c = "") then headers
      else <["X-Correlation-ID" := c]> headers
  | None => headers
  end.

(** A log record as [LoggingFilter] sees it: its message and the attribute
    [correlation_id], which is not there before the filter has run. *)
Record PyLogRecord : Type := mkPyLogRecord {
  record_msg : string;
  record_correlation_id : option string;
}.

(** [LoggingFilter.filter]: the record with its new attribute, and whether
    the record is kept. *)
Definition LoggingFilter_filter (record : PyLogRecord) (w : World)
    : bool * PyLogRecord :=
  let correlation_id :=
    match get_correlation_id w with
    | Some c => if bool_decide (c = "") then "no-correlation-id" else c
    | None => "no-correlation-id"
    end in
  (true, mkPyLogRecord (record_msg record) (Some correlation_id)).

End correlation_middleware.

(** ** ai_workflow_client.py *)

Module ai_workflow_client.

(** *** The network and the scheduler *)

(** An aiohttp response: its status, and what [await response.json()] and
    [await response.text()] give (each may raise). *)
Record ClientResponse : Type := mkClientResponse {
  status : Z;
  json : Exn + PyVal;
  text : Exn + string;
}.

Inductive HttpOutcome : Type :=
  | Raises (e : Exn)
  | Responds (r : ClientResponse).

(** What the code cannot decide: whether the import of the correlation
    module succeeded, the outcome of the [n]-th call made through the session,
    and whether the task is cancelled during its [n]-th sleep. *)
Record Env : Type := mkEnv {
  HAS_CORRELATION_SUPPORT : bool;
  http : nat -> HttpCall -> HttpOutcome;
  sleep_cancelled : nat -> bool;
}.

(** *** The client object *)

Record ClientSession : Type := mkSession { timeout_total : Z }.

Inductive Task : Type := HeartbeatLoopTask.

Record AIWorkflowClient : Type := mkClient {
  config : ServiceConfig;
  agent_id : option N;
  session : option ClientSession;
  heartbeat_task : option Task;
  _registered : bool;
}.

(** [AIWorkflowClient(config)] *)
Definition init (config : ServiceConfig) : AIWorkflowClient :=
  mkClient config None None None false.

Record St : Type := mkSt { self : AIWorkflowClient; world : World }.

(** *** Methods as state transformers that may raise *)

Definition M (A : Type) : Type := St -> (Exn + A) * St.

Definition ret {A} (a : A) : M A := fun s => (inr a, s).

Definition bind {A B} (m : M A) (k : A -> M B) : M B :=
  fun s =>
    match m s with
    | (inr a, s') => k a s'
    | (inl e, s') => (inl e, s')
    end.

#[global] Instance M_ret : MRet M := @ret.
#[global] Instance M_bind : MBind M := fun A B k m => bind m k.

Definition raise {A} (c : ExnClass) (msg : string) : M A :=
  fun s => (inl (mkExn c msg), s).

(** The result of an awaited library call. *)
Definition await {A} (r : Exn + A) : M A := fun s => (r, s).

(** [try: body  except c as e: handler e] *)
Definition try_except {A} (body : M A) (c : ExnClass) (handler : Exn -> M A)
    : M A :=
  fun s =>
    match body s with
    | (inl e, s') => if isinstance e c then handler e s' else (inl e, s')
    | (inr a, s') => (inr a, s')
    end.

Definition get_self : M AIWorkflowClient := fun s => (inr (self s), s).
Definition get_world : M World := fun s => (inr (world s), s).
Definition set_self (c : AIWorkflowClient) : M unit :=
  fun s => (inr tt, mkSt c (world s)).
Definition modify_world (f : World -> World) : M unit :=
  fun s => (inr tt, mkSt (self s) (f (world s))).

Definition logger (l : LogLevel) (m : string) : M unit :=
  modify_world (add_log l m).

(** *** Python operations on decoded values *)

Fixpoint dict_lookup (key : string) (items : list (string * PyVal))
    : option PyVal :=
  match items with
  | [] => None
  | (k, v) :: r => if bool_decide (k = key) then Some v else dict_lookup key r
  end.

(** [v.get(key, default)] *)
Definition py_get (v : PyVal) (key : string) (default : PyVal) : Exn + PyVal :=
  match v with
  | PDict items => inr (from_option (fun x => x) default (dict_lookup key items))
  | _ => inl (mkExn AttributeError "object has no attribute 'get'")
  end.

(** [v[key]] for a string key *)
Definition py_getitem (v : PyVal) (key : string) : Exn + PyVal :=
  match v with
  | PDict items =>
      match dict_lookup key items with
      | Some x => inr x
      | None => inl (mkExn KeyError ("'" ++ key ++ "'"))
      end
  | _ => inl (mkExn TypeError "object is not subscriptable by a string")
  end.

Fixpoint chars (s : string) : list PyVal :=
  match s with
  | EmptyString => []
  | String c r => PStr (String c EmptyString) :: chars r
  end.

(** The elements that [for x in v] runs through. *)
Definition py_iter (v : PyVal) : Exn + list PyVal :=
  match v with
  | PList l => inr l
  | PDict items => inr ((fun kv => PStr kv.1) <$> items)
  | PStr s => inr (chars s)
  | _ => inl (mkExn TypeError "object is not iterable")
  end.

(** [v == s] for a string [s] *)
Definition py_eq_str (v : PyVal) (s : string) : bool :=
  match v with
  | PStr t => bool_decide (t = s)
  | _ => false
  end.

(** *** The session *)

Definition start : M unit :=
  c ← get_self;
  match session c with
  | None =>
      set_self (mkClient (config c) (agent_id c) (Some (mkSession 30))
                  (heartbeat_task c) (_registered c))
  | Some _ => mret tt
  end.

(** [async with self.session.get(...)] or [.post(...)]: the call is recorded
    and the network decides its outcome. *)
Definition session_request (E : Env) (c : HttpCall) : M ClientResponse :=
  fun s =>
    match session (self s) with
    | None =>
        (inl (mkExn AttributeError "'NoneType' object has no attribute"), s)
    | Some _ =>
        let n := List.length (w_calls (world s)) in
        let s' := mkSt (self s) (add_call c (world s)) in
        match http E n c with
        | Raises e => (inl e, s')
        | Responds r => (inr r, s')
        end
    end.

(** The name [inject_correlation_id_header] as this module binds it: the
    imported function, or the fallback that returns the headers. *)
Definition inject_correlation_id_header (E : Env)
    (headers : gmap string string) : M (gmap string string) :=
  w ← get_world;
  mret (if HAS_CORRELATION_SUPPORT E
       then correlation_middleware.inject_correlation_id_header headers None w
       else headers).

(** [if self.config.auth_token: headers["Authorization"] = ...] *)
Definition add_authorization (cfg : ServiceConfig)
    (headers : gmap string string) : gmap string string :=
  match auth_token cfg with
  | Some t =>
      if bool_decide (t = "") then headers
      else <["Authorization" := "Bearer " ++ t]> headers
  | None => headers
  end.

Definition json_headers : gmap string string :=
  {["Content-Type" := "application/json"]}.

(** *** The methods of [AIWorkflowClient] *)

Section methods.
Context `{L : PyLib} (E : Env).

(** [if not self.session: await self.start()] *)
Definition ensure_session : M unit :=
  c ← get_self;
  match session c with
  | None => start
  | Some _ => mret tt
  end.

(** [RegistrationResponse] called with the items of [data] as its keyword
    arguments *)
Definition RegistrationResponse_new (data : PyVal) : M RegistrationResponse :=
  match data with
  | PDict items =>
      match RegistrationResponse_validate items with
      | Some r => mret r
      | None =>
          raise ValidationError "validation errors for RegistrationResponse"
      end
  | _ => raise TypeError "argument after ** must be a mapping"
  end.

(** [UUID(s)] *)
Definition UUID (s : string) : M N :=
  match UUID_of_str s with
  | Some u => mret u
  | None => raise ValueError "badly formed hexadecimal UUID string"
  end.

Definition register : M RegistrationResponse :=
  ensure_session;;
  c ← get_self;
  let cfg := config c in
  let registration :=
    mkRegistrationRequest (name cfg) (endpoint cfg) (capabilities cfg)
      (metadata cfg) in
  let url := registry_endpoint cfg ++ "/registry/agents" in
  headers ← inject_correlation_id_header E json_headers;
  let headers := add_authorization cfg headers in
  try_except
    (response ← session_request E
       (mkHttpCall POST url ∅ (Some (RegistrationRequest_dict registration))
          headers);
     if bool_decide (status response = 200)
        || bool_decide (status response = 201)
     then
       data ← await (json response);
       registration_response ← RegistrationResponse_new data;
       u ← UUID (id registration_response);
       c ← get_self;
       set_self (mkClient (config c) (Some u) (session c) (heartbeat_task c)
                   (_registered c));;
       c ← get_self;
       set_self (mkClient (config c) (agent_id c) (session c)
                   (heartbeat_task c) true);;
       logger INFO ("Service '" ++ name cfg ++ "' registered successfully "
                    ++ "with ID: " ++ str_of_UUID u);;
       mret registration_response
     else
       error_text ← await (text response);
       raise RegistrationError
         ("Registration failed with status " ++ pretty (status response)
          ++ ": " ++ error_text))
    ClientError
    (fun e =>
       raise RegistrationError
         ("Network error during registration: " ++ exn_msg e)).

Definition send_heartbeat : M bool :=
  c ← get_self;
  match agent_id c with
  | None => raise HeartbeatError "Service not registered - cannot send heartbeat"
  | Some u =>
      ensure_session;;
      c ← get_self;
      let cfg := config c in
      w ← get_world;
      let heartbeat :=
        mkHeartbeatRequest (w_now w) (Some "active") (Some (metadata cfg)) in
      let url :=
        registry_endpoint cfg ++ "/registry/agents/" ++ str_of_UUID u
        ++ "/heartbeat" in
      headers ← inject_correlation_id_header E json_headers;
      let headers := add_authorization cfg headers in
      try_except
        (response ← session_request E
           (mkHttpCall POST url ∅ (Some (HeartbeatRequest_dict heartbeat))
              headers);
         if bool_decide (status response = 200) then mret true
         else
           error_text ← await (text response);
           logger ERROR ("Heartbeat failed for service '" ++ name cfg ++ "': "
                         ++ "HTTP " ++ pretty (status response) ++ " - "
                         ++ error_text);;
           mret false)
        ClientError
        (fun e =>
           logger ERROR ("Heartbeat error for service '" ++ name cfg ++ "': "
                         ++ exn_msg e);;
           mret false)
  end.

(** [await asyncio.sleep(seconds)]: it raises [CancelledError] when the task
    is cancelled meanwhile, and otherwise returns once the time has passed. *)
Definition sleep (seconds : Z) : M unit :=
  fun s =>
    let n := w_sleeps (world s) in
    let w := add_sleep (world s) in
    if sleep_cancelled E n
    then (inl (mkExn CancelledError ""), mkSt (self s) w)
    else (inr tt,
          mkSt (self s) (set_now (w_now w + Z.max 0 seconds * 1000000) w)).

(** One pass through the body of [while True] in [heartbeat_loop]: [None]
    when the loop goes on to its next pass, [Some (inr tt)] when it is left by
    [break], [Some (inl e)] when [e] leaves the coroutine. *)
Definition heartbeat_loop_body (s : St) : option (Exn + unit) * St :=
  let cfg := config (self s) in
  match (sleep (heartbeat_interval cfg);; send_heartbeat) s with
  | (inr _, s') => (None, s')
  | (inl e, s') =>
      if isinstance e CancelledError then
        (Some (inr tt),
         mkSt (self s')
           (add_log INFO ("Heartbeat loop cancelled for service '"
                          ++ name (config (self s')) ++ "'") (world s')))
      else if isinstance e Exception then
        (None,
         mkSt (self s')
           (add_log ERROR ("Error in heartbeat loop: " ++ exn_msg e)
              (world s')))
      else (Some (inl e), s')
  end.

(** [heartbeat_loop()], observed for a number of passes: [None] when the loop
    is still running after them. *)
Fixpoint heartbeat_loop (passes : nat) (s : St) : option (Exn + unit) * St :=
  match passes with
  | O => (None, s)
  | S k =>
      match heartbeat_loop_body s with
      | (None, s') => heartbeat_loop k s'
      | (Some r, s') => (Some r, s')
      end
  end.

(** [start_heartbeat] creates the task that runs [heartbeat_loop]; the task
    itself runs later, when the event loop schedules it. *)
Definition start_heartbeat : M Task :=
  c ← get_self;
  if negb (_registered c)
  then raise HeartbeatError
         "Service must be registered before starting heartbeat"
  else
    set_self (mkClient (config c) (agent_id c) (session c)
                (Some HeartbeatLoopTask) (_registered c));;
    logger INFO ("Started heartbeat loop for service '" ++ name (config c)
                 ++ "' (interval: " ++ pretty (heartbeat_interval (config c))
                 ++ "s)");;
    mret HeartbeatLoopTask.

(** [[agent["name"] for agent in agents]] *)
Fixpoint names_of (agents : list PyVal) : Exn + list PyVal :=
  match agents with
  | [] => inr []
  | agent :: rest =>
      match py_getitem agent "name" with
      | inl e => inl e
      | inr n =>
          match names_of rest with
          | inl e => inl e
          | inr ns => inr (n :: ns)
          end
      end
  end.

Definition discover_services (capability : string) : M (list PyVal) :=
  ensure_session;;
  c ← get_self;
  let cfg := config c in
  let url := registry_endpoint cfg ++ "/registry/agents/discover" in
  let params : gmap string string := {["capability" := capability]} in
  headers ← inject_correlation_id_header E ∅;
  let headers := add_authorization cfg headers in
  try_except
    (response ← session_request E (mkHttpCall GET url params None headers);
     if bool_decide (status response = 200) then
       data ← await (json response);
       agents ← await (py_get data "agents" (PList []));
       agents ← await (py_iter agents);
       await (names_of agents)
     else
       error_text ← await (text response);
       raise ServiceDiscoveryError
         ("Service discovery failed with status " ++ pretty (status response)
          ++ ": " ++ error_text))
    ClientError
    (fun e =>
       raise ServiceDiscoveryError
         ("Network error during service discovery: " ++ exn_msg e)).

(** The loop of [_get_service_endpoint] over the agents still to look at. *)
Fixpoint find_endpoint (service_name : string) (agents : list PyVal)
    : Exn + PyVal :=
  match agents with
  | [] =>
      inl (mkExn ServiceDiscoveryError
             ("Service '" ++ service_name ++ "' not found"))
  | agent :: rest =>
      match py_get agent "name" PNone with
      | inl e => inl e
      | inr n =>
          if py_eq_str n service_name then py_get agent "endpoint" PNone
          else find_endpoint service_name rest
      end
  end.

Definition _get_service_endpoint (service_name : string) : M PyVal :=
  c ← get_self;
  let cfg := config c in
  let url := registry_endpoint cfg ++ "/registry/agents" in
  headers ← inject_correlation_id_header E ∅;
  let headers := add_authorization cfg headers in
  response ← session_request E (mkHttpCall GET url ∅ None headers);
  if bool_decide (status response = 200) then
    data ← await (json response);
    agents ← await (py_get data "agents" (PList []));
    agents ← await (py_iter agents);
    await (find_endpoint service_name agents)
  else
    error_text ← await (text response);
    raise ServiceDiscoveryError
      ("Failed to get service list: HTTP " ++ pretty (status response)
       ++ " - " ++ error_text).

Definition call_service (service_name method : string)
    (payload : list (string * PyVal)) : M PyVal :=
  ensure_session;;
  endpoint ← _get_service_endpoint service_name;
  c ← get_self;
  let cfg := config c in
  let url := py_str endpoint ++ "/" ++ method in
  headers ← inject_correlation_id_header E json_headers;
  let headers := add_authorization cfg headers in
  try_except
    (response ← session_request E
       (mkHttpCall POST url ∅ (Some (PDict payload)) headers);
     if bool_decide (status response = 200) then await (json response)
     else
       error_text ← await (text response);
       raise AIWorkflowError
         ("Service call failed: " ++ service_name ++ "/" ++ method
          ++ " returned " ++ pretty (status response) ++ ": " ++ error_text))
    ClientError
    (fun e =>
       raise AIWorkflowError
         ("Network error calling " ++ service_name ++ "/" ++ method ++ ": "
          ++ exn_msg e)).

(** The property [is_registered]. *)
Definition is_registered (c : AIWorkflowClient) : bool := _registered c.

(** The property [agent_id_str]. *)
Definition agent_id_str (c : AIWorkflowClient) : option string :=
  str_of_UUID <$> agent_id c.

End methods.

End ai_workflow_client.

(** ** ai_tutor_service.py *)

Module ai_tutor_service.

Import ai_workflow_client.

Record TutoringRequest : Type := mkTutoringRequest {
  student_query : string;
  subject : string;
  difficulty_level : string;
  learning_style : string;
  context : list (string * PyVal);
}.

Record HealthResponse : Type := mkHealthResponse {
  health_status : string;
  health_service : string;
  health_version : string;
  health_capabilities : list string;
  registered : bool;
}.

(** An [HTTPException]: the status and the detail with which FastAPI answers
    in the handler's place. *)
Record HTTPException : Type := mkHTTPException {
  status_code : Z;
  detail : string;
}.

(** How a handler ends: it returns a value, it raises an [HTTPException], or
    another exception leaves it. *)
Inductive Answer (A : Type) : Type :=
  | Returns (a : A)
  | Refuses (h : HTTPException)
  | Fails (e : Exn).
Arguments Returns {A} a.
Arguments Refuses {A} h.
Arguments Fails {A} e.

(** The module's global [workflow_client], with the world around it. *)
Record Service : Type := mkService {
  workflow_client : option AIWorkflowClient;
  service_world : World;
}.

Definition health_check (sv : Service) : HealthResponse :=
  mkHealthResponse "healthy" "ai-tutor-service" "1.0.0"
    ["tutoring"; "education"; "assistance"; "explanation"]
    (match workflow_client sv with
     | Some c => is_registered c
     | None => false
     end).

Definition discover_related_services (E : Env) (sv : Service)
    : Answer PyVal * Service :=
  match workflow_client sv with
  | None =>
      (Refuses (mkHTTPException 503 "Service not connected to registry"), sv)
  | Some c =>
      let body : M PyVal :=
        education_services ← discover_services E "education";
        workflow_services ← discover_services E "workflow";
        documentation_services ← discover_services E "documentation";
        mret (PDict
                [("discovered_services",
                  PDict [("education", PList education_services);
                         ("workflow", PList workflow_services);
                         ("documentation", PList documentation_services)]);
                 ("total_services",
                  PInt (Z.of_nat (List.length education_services)
                        + Z.of_nat (List.length workflow_services)
                        + Z.of_nat (List.length documentation_services)));
                 ("discovery_time", PStr "2024-01-01T12:00:00Z")]) in
      match body (mkSt c (service_world sv)) with
      | (inr v, s) => (Returns v, mkService (Some (self s)) (world s))
      | (inl e, s) =>
          if isinstance e AIWorkflowError then
            (Refuses (mkHTTPException 503
                        ("Service discovery failed: " ++ exn_msg e)),
             mkService (Some (self s))
               (add_log ERROR ("Service discovery failed: " ++ exn_msg e)
                  (world s)))
          else (Fails e, mkService (Some (self s)) (world s))
      end
  end.

Definition generate_examples (request : TutoringRequest) : list string :=
  let examples :=
    ["Example 1: A practical application of this concept in "
       ++ subject request;
     "Example 2: How this relates to everyday situations you might encounter";
     "Example 3: A step-by-step walkthrough of the process"] in
  let examples :=
    if bool_decide (subject request = "math") then
      (examples
       ++ ["Example 4: Numerical calculation demonstrating the principle";
           "Example 5: Word problem application"])%list
    else if bool_decide (subject request = "programming") then
      (examples
       ++ ["Example 4: Code snippet showing implementation";
           "Example 5: Common use case in software development"])%list
    else examples in
  take 3 examples.

End ai_tutor_service.

(** ** The registry store *)

Module RegistryStore.

Inductive Status : Type := active | stale | deregistered.

#[global] Instance Status_eq_dec : EqDecision Status.
Proof. solve_decision. Defined.

(** Modelled from the spec: the [ServiceInstance] record of the registry's
    data model, which the Python sources only see as the JSON of a
    registration response. *)
Record ServiceInstance : Type := mkInstance {
  inst_id : N;
  inst_name : string;
  inst_endpoint : string;
  inst_capabilities : list string;
  inst_metadata : gmap string PyVal;
  inst_status : Status;
  last_seen : Z;
  created_at : Z;
  updated_at : Z;
}.

Inductive StoreError : Type := NotFoundError.

(** A heartbeat as the registry receives it: [{timestamp, metadata?}] for
    the instance [id]. *)
Record Heartbeat : Type := mkHeartbeat {
  beat_id : N;
  beat_timestamp : Z;
  beat_metadata : option (gmap string PyVal);
}.

(** Modelled from the spec: the Registry Store's [update_heartbeat], which is
    part of the registry and not of the Python sources.  It "fails with
    NotFoundError if id unknown or instance already deregistered; otherwise
    refreshes last_seen, sets status=active, merges metadata if provided", and
    "the store accepts a heartbeat only if its timestamp is >= the currently
    stored last_seen".  The result is [false], and the store is left as it was,
    for a heartbeat that is not accepted. *)
Definition update_heartbeat (h : Heartbeat) (store : gmap N ServiceInstance)
    : (StoreError + bool) * gmap N ServiceInstance :=
  match store !! beat_id h with
  | None => (inl NotFoundError, store)
  | Some i =>
      if bool_decide (inst_status i = deregistered)
      then (inl NotFoundError, store)
      else if bool_decide (last_seen i <= beat_timestamp h)
      then
        (inr true,
         <[beat_id h :=
             mkInstance (inst_id i) (inst_name i) (inst_endpoint i)
               (inst_capabilities i)
               (from_option (fun m => m ∪ inst_metadata i) (inst_metadata i)
                  (beat_metadata h))
               active (beat_timestamp h) (created_at i) (updated_at i)]>
           store)
      else (inr false, store)
  end.

(** The store after a sequence of heartbeats, applied in the order of their
    arrival. *)
Definition apply_heartbeats (hs : list Heartbeat)
    (store : gmap N ServiceInstance) : gmap N ServiceInstance :=
  foldl (fun st h => (update_heartbeat h st).2) store hs.

End RegistryStore.

(** ** A sample of the library interface, for the examples *)

Module sample.

Definition hex_digit (c : ascii) : option N :=
  let n := N_of_ascii c in
  if ((48 <=? n) && (n <=? 57))%N then Some (n - 48)%N
  else if ((97 <=? n) && (n <=? 102))%N then Some (n - 87)%N
  else if ((65 <=? n) && (n <=? 70))%N then Some (n - 55)%N
  else None.

Fixpoint hex_value (acc : N) (digits : nat) (s : string) : option (N * nat) :=
  match s with
  | EmptyString => Some (acc, digits)
  | String c r =>
      if bool_decide (c = "-"%char) then hex_value acc digits r
      else match hex_digit c with
           | Some d => hex_value (16 * acc + d)%N (S digits) r
           | None => None
           end
  end.

(** Hyphenated or plain strings of 32 hexadecimal digits. *)
Definition parse_uuid (s : string) : option N :=
  match hex_value 0%N 0%nat s with
  | Some (v, 32%nat) => Some v
  | _ => None
  end.

Definition hex_char (d : N) : ascii :=
  if (d <? 10)%N then ascii_of_N (48 + d) else ascii_of_N (87 + d).

Fixpoint hex_digits (n : nat) (v : N) (acc : string) : string :=
  match n with
  | O => acc
  | S k => hex_digits k (v / 16)%N (String (hex_char (v mod 16)%N) acc)
  end.

Definition show_uuid (u : N) : string :=
  let h := hex_digits 32 u "" in
  substring 0 8 h ++ "-" ++ substring 8 4 h ++ "-" ++ substring 12 4 h ++ "-"
  ++ substring 16 4 h ++ "-" ++ substring 20 12 h.

Definition repr (v : PyVal) : string :=
  match v with
  | PNone => "None"
  | PBool true => "True"
  | PBool false => "False"
  | PInt n => pretty n
  | PStr s => "'" ++ s ++ "'"
  | PList _ => "[...]"
  | PDict _ => "{...}"
  | PDatetime _ => "datetime.datetime(...)"
  end.

Definition str_field (k : string) (items : list (string * PyVal))
    : option string :=
  match ai_workflow_client.dict_lookup k items with
  | Some (PStr s) => Some s
  | _ => None
  end.

Definition int_field (k : string) (items : list (string * PyVal)) : option Z :=
  match ai_workflow_client.dict_lookup k items with
  | Some (PInt n) => Some n
  | _ => None
  end.

Definition as_str (v : PyVal) : option string :=
  match v with
  | PStr s => Some s
  | _ => None
  end.

(** All nine fields must be present with the declared kind; timestamps are
    given as integers. *)
Definition validate_response (items : list (string * PyVal))
    : option RegistrationResponse :=
  i ← str_field "id" items;
  n ← str_field "name" items;
  e ← str_field "endpoint" items;
  c ← match ai_workflow_client.dict_lookup "capabilities" items with
      | Some (PList l) => mapM as_str l
      | _ => None
      end;
  st ← str_field "status" items;
  ls ← int_field "last_seen" items;
  m ← match ai_workflow_client.dict_lookup "metadata" items with
      | Some (PDict d) => Some d
      | _ => None
      end;
  ca ← int_field "created_at" items;
  ua ← int_field "updated_at" items;
  Some (mkRegistrationResponse i n e c st ls m ca ua).

#[export] Instance lib : PyLib := {|
  UUID_of_str := parse_uuid;
  str_of_UUID := show_uuid;
  uuid4 := fun n => N.of_nat n;
  py_repr := repr;
  RegistrationResponse_validate := validate_response;
|}.

End sample.

(** * Notions for the statements *)

(** ** The correlation identifier in the words of the specification *)

Module spec.

Import correlation_middleware.

(** A character of the restricted set: a letter, a digit, or one of
    [-], [_] and [.]. *)
Definition allowed_char (c : ascii) : Prop :=
  let n := nat_of_ascii c in
  (97 <= n <= 122)%nat \/ (65 <= n <= 90)%nat \/ (48 <= n <= 57)%nat
  \/ c = "-"%char \/ c = "_"%char \/ c = "."%char.

(** A correlation identifier that the specification accepts: not empty, at
    most 128 characters, all of them in the restricted set. *)
Definition acceptable (s : string) : Prop :=
  s <> "" /\ (String.length s <= 128)%nat
  /\ Forall allowed_char (list_ascii_of_string s).

(** The identifier that a request supplies: the value of the first of the
    recognised headers that is present and not empty. *)
Fixpoint first_supplied (hs : Headers) (names : list string) : option string :=
  match names with
  | [] => None
  | n :: rest =>
      match headers_get n hs with
      | Some v => if bool_decide (v = "") then first_supplied hs rest else Some v
      | None => first_supplied hs rest
      end
  end.

Definition supplied (request : Request) : option string :=
  first_supplied (req_headers request) CORRELATION_ID_HEADERS.

(** The identifier that [dispatch] works with: the accepted one, or else the
    next one of the generator. *)
Definition chosen (self : CorrelationIdMiddleware) (request : Request)
    (w : World) : string :=
  default (generator self (w_draws w))
    (_get_correlation_id_from_request self request w).1.

(** The world in which the application handles the request: after the
    lookup, with the draw counted if an identifier was generated, and with
    the identifier in the context. *)
Definition entered (self : CorrelationIdMiddleware) (request : Request)
    (w : World) : World :=
  let '(found, w1) := _get_correlation_id_from_request self request w in
  set_ctx (Some (chosen self request w))
    (match found with
     | Some _ => w1
     | None => add_draw w1
     end).

(** The response that leaves the middleware: the application's, with the
    identifier in the middleware's header. *)
Definition echoed (self : CorrelationIdMiddleware) (cid : string)
    (r : Exn + Response) : Exn + Response :=
  match r with
  | inr response =>
      inr (mkResponse (resp_status response)
             (headers_set (header_name self) cid (resp_headers response))
             (resp_body response))
  | inl e => inl e
  end.

End spec.

(** ** What a run of a client method amounts to *)

Module observe.

Import ai_workflow_client.

(** The client once [ensure_session] has run. *)
Definition with_session (c : AIWorkflowClient) : AIWorkflowClient :=
  match session c with
  | None =>
      mkClient (config c) (agent_id c) (Some (mkSession 30))
        (heartbeat_task c) (_registered c)
  | Some _ => c
  end.

(** The headers of an outgoing request: the correlation header when the
    module is there and the context holds an identifier, then the
    authorization. *)
Definition sent_headers (E : Env) (cfg : ServiceConfig)
    (base : gmap string string) (w : World) : gmap string string :=
  add_authorization cfg
    (if HAS_CORRELATION_SUPPORT E
     then correlation_middleware.inject_correlation_id_header base None w
     else base).

(** The calls that the methods make in the state [s]. *)
Definition register_call (E : Env) (s : St) : HttpCall :=
  let cfg := config (self s) in
  mkHttpCall POST (registry_endpoint cfg ++ "/registry/agents") ∅
    (Some (RegistrationRequest_dict
             (mkRegistrationRequest (name cfg) (endpoint cfg)
                (capabilities cfg) (metadata cfg))))
    (sent_headers E cfg json_headers (world s)).

Definition heartbeat_call `{L : PyLib} (E : Env) (s : St) (u : N) : HttpCall :=
  let cfg := config (self s) in
  mkHttpCall POST
    (registry_endpoint cfg ++ "/registry/agents/" ++ str_of_UUID u
     ++ "/heartbeat") ∅
    (Some (HeartbeatRequest_dict
             (mkHeartbeatRequest (w_now (world s)) (Some "active")
                (Some (metadata cfg)))))
    (sent_headers E cfg json_headers (world s)).

Definition discover_call (E : Env) (s : St) (capability : string) : HttpCall :=
  let cfg := config (self s) in
  mkHttpCall GET (registry_endpoint cfg ++ "/registry/agents/discover")
    {["capability" := capability]} None (sent_headers E cfg ∅ (world s)).

Definition listing_call (E : Env) (s : St) : HttpCall :=
  let cfg := config (self s) in
  mkHttpCall GET (registry_endpoint cfg ++ "/registry/agents") ∅ None
    (sent_headers E cfg ∅ (world s)).

Definition service_call `{L : PyLib} (E : Env) (s : St) (target : PyVal)
    (method : string) (payload : list (string * PyVal)) : HttpCall :=
  mkHttpCall POST (py_str target ++ "/" ++ method) ∅ (Some (PDict payload))
    (sent_headers E (config (self s)) json_headers (world s)).

(** What the network answers to the next call, if it is [c]. *)
Definition reply (E : Env) (s : St) (c : HttpCall) : HttpOutcome :=
  http E (List.length (w_calls (world s))) c.

(** The state once the call [c] has been made. *)
Definition called (c : HttpCall) (s : St) : St :=
  mkSt (with_session (self s)) (add_call c (world s)).

(** An exception as it leaves a [try] whose handler turns every
    [aiohttp.ClientError] into an exception of class [c]. *)
Definition surfaced (c : ExnClass) (message : string -> string) (e : Exn)
    : Exn :=
  if isinstance e ClientError then mkExn c (message (exn_msg e)) else e.

(** The body of a response read as a registration: the validated model and
    the UUID of its [id]. *)
Definition decode `{L : PyLib} (r : ClientResponse)
    : Exn + (RegistrationResponse * N) :=
  match json r with
  | inl e => inl e
  | inr (PDict items) =>
      match RegistrationResponse_validate items with
      | Some rr =>
          match UUID_of_str (id rr) with
          | Some u => inr (rr, u)
          | None => inl (mkExn ValueError "badly formed hexadecimal UUID string")
          end
      | None =>
          inl (mkExn ValidationError
                 "validation errors for RegistrationResponse")
      end
  | inr _ => inl (mkExn TypeError "argument after ** must be a mapping")
  end.

(** The endpoint that the registry's answer to the listing request resolves
    a name to. *)
Definition resolve (service_name : string) (answer : HttpOutcome)
    : Exn + PyVal :=
  match answer with
  | Raises e => inl e
  | Responds r =>
      if bool_decide (status r = 200) then
        match json r with
        | inl e => inl e
        | inr data =>
            match py_get data "agents" (PList []) with
            | inl e => inl e
            | inr agents =>
                match py_iter agents with
                | inl e => inl e
                | inr l => find_endpoint service_name l
                end
            end
        end
      else
        match text r with
        | inl e => inl e
        | inr t =>
            inl (mkExn ServiceDiscoveryError
                   ("Failed to get service list: HTTP " ++ pretty (status r)
                    ++ " - " ++ t))
        end
  end.

(** What [call_service] makes of the target's answer. *)
Definition forwarded (service_name method : string) (answer : HttpOutcome)
    : Exn + PyVal :=
  let network m :=
    "Network error calling " ++ service_name ++ "/" ++ method ++ ": " ++ m in
  match answer with
  | Raises e => inl (surfaced AIWorkflowError network e)
  | Responds r =>
      if bool_decide (status r = 200) then
        match json r with
        | inl e => inl (surfaced AIWorkflowError network e)
        | inr v => inr v
        end
      else
        match text r with
        | inl e => inl (surfaced AIWorkflowError network e)
        | inr t =>
            inl (mkExn AIWorkflowError
                   ("Service call failed: " ++ service_name ++ "/" ++ method
                    ++ " returned " ++ pretty (status r) ++ ": " ++ t))
        end
  end.

(** The calls that the run of [m] from [s] adds to those made before. *)
Definition calls_made {A} (m : M A) (s : St) : list HttpCall :=
  drop (List.length (w_calls (world s))) (w_calls (world (m s).2)).

(** One pass of the heartbeat loop before its handlers: the sleep, then the
    heartbeat. *)
Definition tick `{L : PyLib} (E : Env) (s : St) : (Exn + bool) * St :=
  (sleep E (heartbeat_interval (config (self s)));; send_heartbeat E) s.



(** The registry's listing in a response: the items of each agent, when the
    status is 200 and the body is an object whose [agents], if there, is a
    list of objects. *)
Definition as_items (v : PyVal) : option (list (string * PyVal)) :=
  match v with
  | PDict items => Some items
  | _ => None
  end.

Definition listing (r : ClientResponse)
    : option (list (list (string * PyVal))) :=
  if bool_decide (status r = 200) then
    match json r with
    | inr (PDict items) =>
        match dict_lookup "agents" items with
        | None => Some []
        | Some (PList l) => mapM as_items l
        | Some _ => None
        end
    | _ => None
    end
  else None.

Definition named (service_name : string) (agent : list (string * PyVal))
    : bool :=
  match dict_lookup "name" agent with
  | Some (PStr n) => bool_decide (n = service_name)
  | _ => false
  end.

(** The selection among the agents of a listing: the endpoint of the first
    one, in the order of the listing, that has the name. *)
Definition first_named (service_name : string)
    (agents : list (list (string * PyVal))) : Exn + PyVal :=
  match List.find (named service_name) agents with
  | Some agent => inr (default PNone (dict_lookup "endpoint" agent))
  | None =>
      inl (mkExn ServiceDiscoveryError
             ("Service '" ++ service_name ++ "' not found"))
  end.

End observe.

(** ** Sample inputs *)

Module fixtures.

Import ai_workflow_client.

Definition config : ServiceConfig :=
  mkServiceConfig "ai-tutor-service" "http://localhost:3001"
    ["tutoring"; "education"; "assistance"] "http://localhost:8080" None 30
    [("version", PStr "1.0.0")] "python".

(** A configuration with neither a name nor an endpoint. *)
Definition blank_config : ServiceConfig :=
  mkServiceConfig "" "" [] "http://localhost:8080" None 30 [] "python".

Definition world : World := mkWorld None [] 0 0 0 [].

Definition state : St := mkSt (init config) world.

Definition blank_state : St := mkSt (init blank_config) world.

(** The client after a registration that gave it the identifier 7. *)
Definition registered_state : St :=
  mkSt (mkClient config (Some 7%N) (Some (mkSession 30)) None true) world.

Definition registration (n e : string) : PyVal :=
  PDict [("id", PStr "123e4567-e89b-12d3-a456-426614174000");
         ("name", PStr n); ("endpoint", PStr e);
         ("capabilities", PList []); ("status", PStr "active");
         ("last_seen", PInt 0); ("metadata", PDict []);
         ("created_at", PInt 0); ("updated_at", PInt 0)].

Definition not_json : Exn + PyVal :=
  inl (mkExn JSONDecodeError "Expecting value: line 1 column 1 (char 0)").

(** A network that gives the same answer to every call. *)
Definition answering (a : HttpOutcome) : Env :=
  mkEnv true (fun _ _ => a) (fun _ => false).

Definition created (n e : string) : HttpOutcome :=
  Responds (mkClientResponse 201 (inr (registration n e)) (inr "")).

Definition bad_request : HttpOutcome :=
  Responds (mkClientResponse 400 not_json (inr "name must not be empty")).


(** A registry that lists two instances of [dup-svc], and a target that
    gives the answer [a]. *)
Definition agent (n e : string) : PyVal :=
  PDict [("name", PStr n); ("endpoint", PStr e)].

Definition agents_response : ClientResponse :=
  mkClientResponse 200
    (inr (PDict [("agents",
                  PList [agent "svc-a" "http://localhost:9001";
                         agent "dup-svc" "http://localhost:9002";
                         agent "dup-svc" "http://localhost:9003"])]))
    (inr "").

Definition agents : HttpOutcome := Responds agents_response.

Definition agents_items : list (list (string * PyVal)) :=
  [[("name", PStr "svc-a"); ("endpoint", PStr "http://localhost:9001")];
   [("name", PStr "dup-svc"); ("endpoint", PStr "http://localhost:9002")];
   [("name", PStr "dup-svc"); ("endpoint", PStr "http://localhost:9003")]].

Definition registry_and_target (a : HttpOutcome) : Env :=
  mkEnv true
    (fun _ c => match call_method c with GET => agents | POST => a end)
    (fun _ => false).

Definition refused : HttpOutcome :=
  Raises (mkExn ClientConnectionError "Cannot connect to host").

Definition server_error : HttpOutcome :=
  Responds (mkClientResponse 500 not_json (inr "internal error")).



(** A world whose context holds an identifier, and a client in it. *)
Definition traced_world : World := mkWorld (Some "req-1") [] 0 0 0 [].


(** Two middlewares, one that validates and one that does not, and an
    application that answers every request. *)
Definition validating : correlation_middleware.CorrelationIdMiddleware :=
  correlation_middleware.mkMiddleware "X-Correlation-ID"
    (fun n => "generated-" ++ pretty (Z.of_nat n)) true.

Definition trusting : correlation_middleware.CorrelationIdMiddleware :=
  correlation_middleware.mkMiddleware "X-Correlation-ID"
    (fun n => "generated-" ++ pretty (Z.of_nat n)) false.

Definition health : correlation_middleware.App :=
  fun _ w =>
    (inr (correlation_middleware.mkResponse 200
            [("content-type", "application/json")] "ok"), w).

Definition request_with (k v : string) : correlation_middleware.Request :=
  correlation_middleware.mkRequest "/health" [(k, v)] None.

(** A store with one instance, last seen at time 100, and heartbeats for it
    that arrive out of order. *)
Definition instance : RegistryStore.ServiceInstance :=
  RegistryStore.mkInstance 1 "svc-a" "http://localhost:9001" ["tutoring"] ∅
    RegistryStore.active 100 50 100.

Definition store : gmap N RegistryStore.ServiceInstance := {[1%N := instance]}.

Definition beats : list RegistryStore.Heartbeat :=
  [RegistryStore.mkHeartbeat 1 150 None; RegistryStore.mkHeartbeat 1 120 None;
   RegistryStore.mkHeartbeat 1 90 None].

End fixtures.

(** ** Further notions: discovery, headers and the state of the client *)

Module behaviour.

Import ai_workflow_client observe.

(** What [discover_services] makes of the registry's answer. *)
Definition discovered (answer : HttpOutcome) : Exn + list PyVal :=
  let network m := "Network error during service discovery: " ++ m in
  match answer with
  | Raises e => inl (surfaced ServiceDiscoveryError network e)
  | Responds r =>
      if bool_decide (status r = 200) then
        match json r with
        | inl e => inl (surfaced ServiceDiscoveryError network e)
        | inr data =>
            match py_get data "agents" (PList []) with
            | inl e => inl e
            | inr agents =>
                match py_iter agents with
                | inl e => inl e
                | inr l => names_of l
                end
            end
        end
      else
        match text r with
        | inl e => inl (surfaced ServiceDiscoveryError network e)
        | inr t =>
            inl (mkExn ServiceDiscoveryError
                   ("Service discovery failed with status "
                    ++ pretty (status r) ++ ": " ++ t))
        end
  end.

(** The names of the agents of a listing, when each agent has one. *)
Definition names_in (agents : list (list (string * PyVal)))
    : option (list PyVal) :=
  mapM (dict_lookup "name") agents.

(** The [Authorization] header that the configuration asks for. *)
Definition bearer (cfg : ServiceConfig) : option string :=
  match auth_token cfg with
  | Some t => if bool_decide (t = "") then None else Some ("Bearer " ++ t)
  | None => None
  end.

(** A client that is marked registered has an identifier. *)
Definition sound (c : AIWorkflowClient) : Prop :=
  _registered c = true -> is_Some (agent_id c).

(** What a method may do to the client object: the configuration stays, a
    session that is there stays, and neither the identifier nor the mark of
    registration is taken back. *)
Definition keeps (c c' : AIWorkflowClient) : Prop :=
  config c' = config c
  /\ (is_Some (session c) -> session c' = session c)
  /\ (is_Some (agent_id c) -> is_Some (agent_id c'))
  /\ (_registered c = true -> _registered c' = true).

(** A scheduler that never cancels the task, and a network whose failures
    are all instances of [Exception]. *)
Definition raises_only_exceptions (E : Env) : Prop :=
  (forall n, sleep_cancelled E n = false)
  /\ (forall n c e, http E n c = Raises e -> isinstance e Exception = true)
  /\ (forall n c r e, http E n c = Responds r -> text r = inl e ->
        isinstance e Exception = true).

(** Whether [json.dumps] serialises a value: it raises [TypeError] for a
    [datetime] object, wherever in the value it is. *)
Fixpoint json_serializable (v : PyVal) : bool :=
  match v with
  | PDatetime _ => false
  | PList l => forallb json_serializable l
  | PDict items => forallb (fun kv => json_serializable kv.2) items
  | _ => true
  end.

(** The [TypeError] of [json.dumps] for a [datetime] object. *)
Definition not_serializable : Exn :=
  mkExn TypeError "Object of type datetime is not JSON serializable".

(** A session that serialises the [json] argument of a request before it
    sends anything, as [aiohttp.ClientSession] does with its default
    [json_serialize=json.dumps]: a request whose payload cannot be serialised
    raises the [TypeError]. *)
Definition serializing (E : Env) : Prop :=
  forall n c j, call_json c = Some j -> json_serializable j = false ->
    http E n c = Raises not_serializable.

End behaviour.

Module fixtures2.

Import ai_workflow_client fixtures.

Definition token_config : ServiceConfig :=
  mkServiceConfig "ai-tutor-service" "http://localhost:3001" ["tutoring"]
    "http://localhost:8080" (Some "s3cret") 30 [] "python".

Definition token_state : St := mkSt (init token_config) world.

(** A network on which every call times out, and nothing is cancelled. *)
Definition timing_out : Env :=
  mkEnv true (fun _ _ => Raises (mkExn TimeoutError "")) (fun _ => false).

(** A session with the default serialiser: a payload that [json.dumps]
    refuses raises, and every other call gets the answer [a]. *)
Definition dumping (a : HttpOutcome) : Env :=
  mkEnv true
    (fun _ c =>
       match call_json c with
       | Some j =>
           if behaviour.json_serializable j then a
           else Raises behaviour.not_serializable
       | None => a
       end)
    (fun _ => false).

Definition unavailable : HttpOutcome :=
  Responds (mkClientResponse 503 not_json (inr "registry unavailable")).

(** A listing in which the second agent has no name. *)
Definition nameless_response : ClientResponse :=
  mkClientResponse 200
    (inr (PDict [("agents",
                  PList [agent "svc-a" "http://localhost:9001";
                         PDict [("endpoint", PStr "http://localhost:9002")]])]))
    (inr "").

Definition nameless_items : list (list (string * PyVal)) :=
  [[("name", PStr "svc-a"); ("endpoint", PStr "http://localhost:9001")];
   [("endpoint", PStr "http://localhost:9002")]].

End fixtures2.

(** * Properties *)
(** ** The correlation middleware *)

Section correlation.
Import correlation_middleware spec.

Lemma string_mem_allowed (c : ascii) :
  string_mem c allowed_chars = true <-> allowed_char c.
Proof.
  unfold allowed_char.
  destruct c as [[] [] [] [] [] [] [] []]; vm_compute;
    (split; [ intros Hm; first [ discriminate Hm | lia | tauto ]
            | intros Ha; first [ reflexivity | exfalso; intuition (first [lia | discriminate]) ] ]).
Qed.

Lemma string_forallb_Forall (p : ascii -> bool) (s : string) :
  string_forallb p s = true <-> Forall (fun c => p c = true) (list_ascii_of_string s).
Proof.
  induction s as [|c r IH]; simpl.
  - split; [constructor | reflexivity].
  - rewrite andb_true_iff, IH, Forall_cons. reflexivity.
Qed.

Lemma is_valid_acceptable (s : string) :
  _is_valid_correlation_id s = true <-> acceptable s.
Proof.
  unfold _is_valid_correlation_id, acceptable.
  case_bool_decide as Hs.
  - subst s. split; [discriminate | intros [H _]; congruence].
  - destruct (_ || _)%nat eqn:Hlen.
    + split; [discriminate|]. intros (_ & Hl & _).
      apply orb_true_iff in Hlen as [H|H].
      * apply Nat.ltb_lt in H. destruct s; [congruence | simpl in H; lia].
      * apply Nat.ltb_lt in H. lia.
    + apply orb_false_iff in Hlen as [_ H]. apply Nat.ltb_ge in H.
      rewrite string_forallb_Forall. split.
      * intros HF. repeat split; [done | done |].
        eapply Forall_impl; [exact HF|]. intros c. apply string_mem_allowed.
      * intros (_ & _ & HF). eapply Forall_impl; [exact HF|].
        intros c. apply string_mem_allowed.
Qed.

Lemma get_from_headers_spec (self : CorrelationIdMiddleware) (request : Request)
    (names : list string) (w : World) :
  (get_from_headers self request names w).1 =
    match first_supplied (req_headers request) names with
    | Some c =>
        if validate self && negb (_is_valid_correlation_id c) then None
        else Some c
    | None => None
    end.
Proof.
  induction names as [|n rest IH]; simpl; [reflexivity|].
  destruct (headers_get n (req_headers request)) as [v|]; [|exact IH].
  case_bool_decide; [exact IH|].
  destruct (validate self && negb (_is_valid_correlation_id v)); reflexivity.
Qed.

End correlation.

(** ** Runs of the client methods *)

Ltac run_monad :=
  cbv beta iota zeta delta
    [mbind ai_workflow_client.M_bind ai_workflow_client.bind mret ai_workflow_client.M_ret ai_workflow_client.ret
     ai_workflow_client.try_except ai_workflow_client.raise
     ai_workflow_client.await ai_workflow_client.get_self
     ai_workflow_client.get_world ai_workflow_client.set_self
     ai_workflow_client.modify_world ai_workflow_client.logger
     ai_workflow_client.session_request ai_workflow_client.ensure_session
     ai_workflow_client.start
     ai_workflow_client.inject_correlation_id_header
     ai_workflow_client.RegistrationResponse_new ai_workflow_client.UUID].

Ltac eval_isinstance :=
  repeat match goal with
    | |- context [isinstance (mkExn ?c ?m) ?d] =>
        let b := eval vm_compute in (issubclass c d) in
        change (isinstance (mkExn c m) d) with b
    end.

Ltac split_cases :=
  repeat (eval_isinstance; simpl;
          match goal with
          | |- context [match ?x with _ => _ end] =>
              lazymatch x with
              | context [match _ with _ => _ end] => fail
              | _ => destruct x eqn:?
              end
          end).

Section client.
Import ai_workflow_client observe.
Context `{L : PyLib} (E : Env).

Lemma register_run (s : St) :
  register E s =
    let c := register_call E s in
    let network m := "Network error during registration: " ++ m in
    match reply E s c with
    | Raises e => (inl (surfaced RegistrationError network e), called c s)
    | Responds r =>
        if bool_decide (status r = 200) || bool_decide (status r = 201) then
          match decode r with
          | inl e => (inl (surfaced RegistrationError network e), called c s)
          | inr (rr, u) =>
              (inr rr,
               mkSt (mkClient (config (self s)) (Some u)
                       (session (with_session (self s)))
                       (heartbeat_task (self s)) true)
                 (add_log INFO
                    ("Service '" ++ name (config (self s))
                     ++ "' registered successfully " ++ "with ID: "
                     ++ str_of_UUID u)
                    (add_call c (world s))))
          end
        else
          match text r with
          | inl e => (inl (surfaced RegistrationError network e), called c s)
          | inr t =>
              (inl (mkExn RegistrationError
                      ("Registration failed with status "
                       ++ pretty (status r) ++ ": " ++ t)), called c s)
          end
    end.
Proof.
  unfold register, register_call, sent_headers, reply, called, decode,
    surfaced, with_session.
  run_monad. destruct s as [[cfg aid sess task reg] w].
  split_cases; simpl; try reflexivity; try congruence.
Qed.

Lemma send_heartbeat_run (s : St) (u : N) :
  agent_id (self s) = Some u ->
  send_heartbeat E s =
    let c := heartbeat_call E s u in
    let logged m :=
      mkSt (with_session (self s)) (add_log ERROR m (add_call c (world s))) in
    let on_error e :=
      if isinstance e ClientError
      then (inr false,
            logged ("Heartbeat error for service '" ++ name (config (self s))
                    ++ "': " ++ exn_msg e))
      else (inl e, called c s) in
    match reply E s c with
    | Raises e => on_error e
    | Responds r =>
        if bool_decide (status r = 200) then (inr true, called c s)
        else
          match text r with
          | inl e => on_error e
          | inr t =>
              (inr false,
               logged ("Heartbeat failed for service '"
                       ++ name (config (self s)) ++ "': " ++ "HTTP "
                       ++ pretty (status r) ++ " - " ++ t))
          end
    end.
Proof.
  unfold send_heartbeat, heartbeat_call, sent_headers, reply, called,
    with_session.
  run_monad. destruct s as [[cfg aid sess task reg] w]. simpl.
  intros ->. split_cases; simpl; try reflexivity; try congruence.
Qed.

Lemma _get_service_endpoint_run (service_name : string) (s : St) :
  is_Some (session (self s)) ->
  _get_service_endpoint E service_name s =
    let c := listing_call E s in
    (resolve service_name (reply E s c), called c s).
Proof.
  unfold _get_service_endpoint, listing_call, sent_headers, reply, called,
    resolve, with_session.
  run_monad. destruct s as [[cfg aid sess task reg] w]. simpl.
  intros [x ->]. split_cases; simpl; try reflexivity; try congruence.
Qed.

Lemma bind_run {A B} (m : M A) (k : A -> M B) (s : St) :
  (m ≫= k) s =
    match m s with
    | (inr a, s') => k a s'
    | (inl e, s') => (inl e, s')
    end.
Proof. reflexivity. Qed.

Lemma ensure_session_run (s : St) :
  ensure_session s = (inr tt, mkSt (with_session (self s)) (world s)).
Proof. destruct s as [[cfg aid [sess|] task reg] w]; reflexivity. Qed.

Lemma with_session_is_Some (c : AIWorkflowClient) :
  is_Some (session (with_session c)).
Proof. destruct c as [cfg aid [sess|] task reg]; simpl; eauto. Qed.

Lemma call_service_run (service_name method : string)
    (payload : list (string * PyVal)) (s : St) :
  call_service E service_name method payload s =
    let c := listing_call E s in
    match resolve service_name (reply E s c) with
    | inl e => (inl e, called c s)
    | inr target =>
        let c' := service_call E (called c s) target method payload in
        (forwarded service_name method (reply E (called c s) c'),
         called c' (called c s))
    end.
Proof.
  unfold call_service.
  rewrite bind_run, ensure_session_run.
  rewrite bind_run, _get_service_endpoint_run by apply with_session_is_Some.
  destruct s as [[cfg aid sess task reg] w].
  unfold listing_call, reply, called, with_session. simpl.
  destruct sess as [sess|]; simpl.
  all: destruct (resolve _ _) as [e|target]; simpl; [reflexivity|].
  all: unfold service_call, sent_headers, forwarded, surfaced.
  all: run_monad; simpl.
  all: split_cases; simpl; try reflexivity; try congruence.
Qed.

Lemma find_endpoint_first_named (service_name : string) (l : list PyVal)
    (agents : list (list (string * PyVal))) :
  mapM as_items l = Some agents ->
  find_endpoint service_name l = first_named service_name agents.
Proof.
  revert agents. induction l as [|a l IH]; intros agents Hm.
  - injection Hm as <-. reflexivity.
  - simpl in Hm. destruct a; simpl in Hm; try discriminate.
    destruct (mapM as_items l) as [rest|] eqn:Hrest; simpl in Hm; [|discriminate].
    injection Hm as <-. specialize (IH rest eq_refl).
    unfold first_named in *. simpl. unfold named at 1.
    destruct (dict_lookup "name" items) as [[]|]; simpl; try exact IH.
    case_bool_decide; simpl; [reflexivity | exact IH].
Qed.

Lemma resolve_listing (service_name : string) (r : ClientResponse)
    (agents : list (list (string * PyVal))) :
  listing r = Some agents ->
  resolve service_name (Responds r) = first_named service_name agents.
Proof.
  unfold listing, resolve. case_bool_decide; [|discriminate].
  destruct (json r) as [e|[]]; try discriminate. simpl.
  destruct (dict_lookup "agents" items) as [[]|] eqn:Ha; try discriminate; simpl.
  - apply find_endpoint_first_named.
  - intros [= <-]. reflexivity.
Qed.

Lemma calls_made_app {A} (m : M A) (s : St) (l : list HttpCall) :
  w_calls (world (m s).2) = (w_calls (world s) ++ l)%list ->
  calls_made m s = l.
Proof. unfold calls_made. intros ->. by rewrite drop_app_length. Qed.

Lemma register_calls_made (s : St) :
  calls_made (register E) s = [register_call E s].
Proof.
  apply calls_made_app. rewrite register_run. cbv zeta.
  repeat case_match; reflexivity.
Qed.

Lemma send_heartbeat_calls_made (s : St) :
  calls_made (send_heartbeat E) s =
    match agent_id (self s) with
    | Some u => [heartbeat_call E s u]
    | None => []
    end.
Proof.
  apply calls_made_app.
  destruct (agent_id (self s)) as [u|] eqn:Hu.
  - rewrite (send_heartbeat_run s u Hu). cbv zeta.
    repeat case_match; reflexivity.
  - destruct s as [[cfg aid sess task reg] w]. simpl in Hu. subst aid.
    simpl. by rewrite app_nil_r.
Qed.


Lemma call_service_calls_made (service_name method : string)
    (payload : list (string * PyVal)) (s : St) :
  let c := listing_call E s in
  calls_made (call_service E service_name method payload) s =
    match resolve service_name (reply E s c) with
    | inl _ => [c]
    | inr target => [c; service_call E (called c s) target method payload]
    end.
Proof.
  cbv zeta. apply calls_made_app. rewrite call_service_run. cbv zeta.
  destruct (resolve _ _); simpl; [done|]. by rewrite <- app_assoc.
Qed.

End client.

(** ** Registration *)

Section registration.
Import ai_workflow_client observe.
Context `{L : PyLib} (E : Env).



(** C6 (amended): [register] does not validate the name or the endpoint of
    the configuration: whatever they are, it posts them as they stand to the
    registry, and that is the only call it makes.  When the registry rejects
    the registration with a status other than 200 and 201, [register] raises
    [RegistrationError], and [agent_id] and [is_registered] are as before. *)
Theorem register_forwards_and_rejection_raises (s : St) :
  let cfg := config (self s) in
  let c := register_call E s in
  calls_made (register E) s = [c]
  /\ call_json c =
       Some (PDict [("name", PStr (name cfg));
                    ("endpoint", PStr (endpoint cfg));
                    ("capabilities", PList (PStr <$> capabilities cfg));
                    ("metadata", PDict (metadata cfg))])
  /\ forall r t, reply E s c = Responds r -> status r <> 200 ->
       status r <> 201 -> text r = inr t ->
       (register E s).1 =
         inl (mkExn RegistrationError
                ("Registration failed with status " ++ pretty (status r)
                 ++ ": " ++ t))
       /\ agent_id (self (register E s).2) = agent_id (self s)
       /\ is_registered (self (register E s).2) = is_registered (self s).
Proof.
  cbv zeta. split; [|split; [reflexivity|]].
  - apply register_calls_made.
  - intros r t Hr H1 H2 Ht. rewrite register_run. cbv zeta. rewrite Hr.
    rewrite !bool_decide_eq_false_2 by done. simpl. rewrite Ht. simpl.
    destruct s as [[? ? [] ? ?] ?]; done.
Qed.

(** C9: without a registration there is no heartbeat: [send_heartbeat]
    raises [HeartbeatError] when [agent_id] is unset, and [start_heartbeat]
    raises it when the client is not marked registered; in both cases the
    state is the one before, so no call was made and the client is as it
    was. *)
Theorem heartbeat_requires_registration (s : St) :
  (agent_id (self s) = None ->
     send_heartbeat E s =
       (inl (mkExn HeartbeatError
               "Service not registered - cannot send heartbeat"), s))
  /\ (is_registered (self s) = false ->
        start_heartbeat s =
          (inl (mkExn HeartbeatError
                  "Service must be registered before starting heartbeat"), s)).
Proof.
  destruct s as [[cfg aid sess task reg] w]. simpl. split.
  - intros ->. reflexivity.
  - unfold is_registered. simpl. intros ->. reflexivity.
Qed.

End registration.

(** ** Calls to other services *)

Section calls.
Import ai_workflow_client observe.
Context `{L : PyLib} (E : Env).

Lemma calls_made_called2 {A} (m : M A) (s : St) (c c' : HttpCall) (x : Exn + A) :
  m s = (x, called c' (called c s)) -> calls_made m s = [c; c'].
Proof.
  unfold calls_made. intros ->. simpl. rewrite <- app_assoc.
  by rewrite drop_app_length.
Qed.

Lemma calls_made_called {A} (m : M A) (s : St) (c : HttpCall) (x : Exn + A) :
  m s = (x, called c s) -> calls_made m s = [c].
Proof. unfold calls_made. intros ->. simpl. by rewrite drop_app_length. Qed.

Lemma first_named_none (service_name : string)
    (agents : list (list (string * PyVal))) :
  Forall (fun a => dict_lookup "name" a <> Some (PStr service_name)) agents ->
  first_named service_name agents =
    inl (mkExn ServiceDiscoveryError
           ("Service '" ++ service_name ++ "' not found")).
Proof.
  unfold first_named. induction 1 as [|a l Ha _ IH]; [reflexivity|].
  simpl. unfold named at 1.
  destruct (dict_lookup "name" a) as [[]|]; try exact IH.
  case_bool_decide; [congruence | exact IH].
Qed.

(** C1 (amended): once the name is resolved, [call_service] posts to the
    target once, and a failure of that call reaches the caller as follows.
    An [aiohttp.ClientError] (a failed connection, or a body that is not of a
    JSON content type) and a status other than 200 both become an
    [AIWorkflowError], told apart by the message only; any other exception,
    such as [asyncio.TimeoutError] or [json.JSONDecodeError], leaves
    [call_service] as it is, whether the call or the reading of the body
    raised it.  When the name is not resolved, the listing request is the only
    call, and the failure of the resolution leaves [call_service] as it is:
    a [ServiceDiscoveryError] when the listing has no agent of the name or
    the registry answers with a status other than 200, and the exception of
    the listing request itself, an [aiohttp.ClientError] included. *)
Theorem call_service_classifies_by_client_error
    (service_name method : string) (payload : list (string * PyVal))
    (s : St) :
  let c := listing_call E s in
  let result := (call_service E service_name method payload s).1 in
  let calls := calls_made (call_service E service_name method payload) s in
  let network m :=
    "Network error calling " ++ service_name ++ "/" ++ method ++ ": " ++ m in
  (forall target, resolve service_name (reply E s c) = inr target ->
     let c' := service_call E (called c s) target method payload in
     let answer := reply E (called c s) c' in
     calls = [c; c']
     /\ (forall e, answer = Raises e -> isinstance e ClientError = true ->
           result = inl (mkExn AIWorkflowError (network (exn_msg e))))
     /\ (forall e, answer = Raises e -> isinstance e ClientError = false ->
           result = inl e)
     /\ (forall r t, answer = Responds r -> status r <> 200 ->
           text r = inr t ->
           result = inl (mkExn AIWorkflowError
                           ("Service call failed: " ++ service_name ++ "/"
                            ++ method ++ " returned " ++ pretty (status r)
                            ++ ": " ++ t)))
     /\ (forall r e, answer = Responds r ->
           (status r = 200 /\ json r = inl e)
           \/ (status r <> 200 /\ text r = inl e) ->
           result = inl (if isinstance e ClientError
                         then mkExn AIWorkflowError (network (exn_msg e))
                         else e))
     /\ (forall r v, answer = Responds r -> status r = 200 ->
           json r = inr v -> result = inr v))
  /\ (forall e, resolve service_name (reply E s c) = inl e ->
        result = inl e /\ calls = [c])
  /\ (forall r agents, reply E s c = Responds r -> listing r = Some agents ->
        Forall (fun a => dict_lookup "name" a <> Some (PStr service_name))
          agents ->
        result = inl (mkExn ServiceDiscoveryError
                        ("Service '" ++ service_name ++ "' not found")))
  /\ (forall r t, reply E s c = Responds r -> status r <> 200 ->
        text r = inr t ->
        result = inl (mkExn ServiceDiscoveryError
                        ("Failed to get service list: HTTP "
                         ++ pretty (status r) ++ " - " ++ t)))
  /\ (forall e, reply E s c = Raises e -> result = inl e).
Proof.
  cbv zeta.
  pose proof (call_service_run E service_name method payload s) as Hrun.
  cbv zeta in Hrun.
  split; [|split; [|split; [|split]]].
  - intros target Hres. rewrite Hres in Hrun. rewrite Hrun. simpl.
    split; [by eapply calls_made_called2|].
    unfold forwarded, surfaced.
    split; [|split; [|split; [|split]]].
    + intros e -> ->. reflexivity.
    + intros e -> ->. reflexivity.
    + intros r t -> Hs ->. by rewrite bool_decide_eq_false_2.
    + intros r e -> [[Hs ->]|[Hs ->]];
        [by rewrite bool_decide_eq_true_2 | by rewrite bool_decide_eq_false_2].
    + intros r v -> Hs ->. by rewrite bool_decide_eq_true_2.
  - intros e Hres. rewrite Hres in Hrun.
    split; [by rewrite Hrun | by eapply calls_made_called].
  - intros r agents Hr Hl Hnone.
    rewrite Hr, (resolve_listing _ _ _ Hl) in Hrun.
    rewrite first_named_none in Hrun by done. by rewrite Hrun.
  - intros r t Hr Hs Ht. rewrite Hr in Hrun. simpl in Hrun.
    rewrite bool_decide_eq_false_2, Ht in Hrun by done. by rewrite Hrun.
  - intros e He. rewrite He in Hrun. by rewrite Hrun.
Qed.

(** C2: when the registry's listing has no agent of the requested name,
    [call_service] raises [ServiceDiscoveryError], and the one call it has made
    is the listing request to the registry: nothing is sent to a target. *)
Theorem unresolved_service_fails_before_any_call_to_it
    (service_name method : string) (payload : list (string * PyVal))
    (s : St) (r : ClientResponse) (agents : list (list (string * PyVal))) :
  let c := listing_call E s in
  reply E s c = Responds r ->
  listing r = Some agents ->
  Forall (fun a => dict_lookup "name" a <> Some (PStr service_name)) agents ->
  (call_service E service_name method payload s).1 =
    inl (mkExn ServiceDiscoveryError
           ("Service '" ++ service_name ++ "' not found"))
  /\ calls_made (call_service E service_name method payload) s = [c]
  /\ call_method c = GET
  /\ call_url c = registry_endpoint (config (self s)) ++ "/registry/agents".
Proof.
  cbv zeta. intros Hr Hl Hnone.
  pose proof (call_service_run E service_name method payload s) as Hrun.
  cbv zeta in Hrun. rewrite Hr, (resolve_listing _ _ _ Hl) in Hrun.
  rewrite first_named_none in Hrun by done.
  split; [by rewrite Hrun|]. split; [by eapply calls_made_called|done].
Qed.

(** C5: resolution of a name is a function of the registry's listing.  Two
    resolutions in a row that get the same answer from the registry give the
    same result, and with a listing that result is the endpoint of the first
    agent of that name in the order of the listing, however many agents share
    the name. *)
Theorem endpoint_resolution_is_deterministic (service_name : string)
    (s : St) (r : ClientResponse) :
  let first := _get_service_endpoint E service_name s in
  let second := _get_service_endpoint E service_name first.2 in
  is_Some (session (self s)) ->
  reply E s (listing_call E s) = Responds r ->
  reply E first.2 (listing_call E first.2) = Responds r ->
  second.1 = first.1
  /\ forall agents, listing r = Some agents ->
       first.1 = first_named service_name agents.
Proof.
  cbv zeta. intros Hsess H1 H2.
  rewrite (_get_service_endpoint_run E service_name s Hsess) in *.
  cbv zeta in *. simpl in H2 |- *.
  rewrite _get_service_endpoint_run by (simpl; apply with_session_is_Some).
  cbv zeta. simpl. rewrite H1, H2. split; [reflexivity|].
  intros agents Hl. by apply resolve_listing.
Qed.

End calls.

(** ** The heartbeat loop *)

Section heartbeat.
Import ai_workflow_client observe.
Context `{L : PyLib} (E : Env).

Lemma exception_not_cancellation (e : Exn) :
  isinstance e Exception = true -> isinstance e CancelledError = false.
Proof. destruct e as [[] m]; vm_compute; congruence. Qed.

Lemma heartbeat_loop_body_cases (s : St) :
  match tick E s with
  | (inr _, s') => heartbeat_loop_body E s = (None, s')
  | (inl e, s') =>
      if isinstance e CancelledError then
        heartbeat_loop_body E s =
          (Some (inr tt),
           mkSt (self s')
             (add_log INFO ("Heartbeat loop cancelled for service '"
                            ++ name (config (self s')) ++ "'") (world s')))
      else if isinstance e Exception then
        heartbeat_loop_body E s =
          (None,
           mkSt (self s')
             (add_log ERROR ("Error in heartbeat loop: " ++ exn_msg e)
                (world s')))
      else heartbeat_loop_body E s = (Some (inl e), s')
  end.
Proof.
  unfold heartbeat_loop_body, tick.
  destruct ((sleep E _;; send_heartbeat E) s) as [[e|b] s']; [|reflexivity].
  destruct (isinstance e CancelledError); [reflexivity|].
  destruct (isinstance e Exception); reflexivity.
Qed.

Lemma heartbeat_loop_S (passes : nat) (s : St) :
  heartbeat_loop E (S passes) s =
    match heartbeat_loop_body E s with
    | (None, s') => heartbeat_loop E passes s'
    | (Some r, s') => (Some r, s')
    end.
Proof. reflexivity. Qed.



End heartbeat.

(** ** The registry store *)

Section store.
Import RegistryStore.

Lemma update_heartbeat_last_seen (h : Heartbeat)
    (store : gmap N ServiceInstance) (k : N) (i : ServiceInstance) :
  store !! k = Some i ->
  exists i', (update_heartbeat h store).2 !! k = Some i'
             /\ last_seen i <= last_seen i'.
Proof.
  intros Hk. unfold update_heartbeat.
  destruct (store !! beat_id h) as [j|] eqn:Hj; simpl; [|eauto with lia].
  case_bool_decide; simpl; [eauto with lia|].
  case_bool_decide as Hle; simpl; [|eauto with lia].
  destruct (decide (beat_id h = k)) as [Heq|Hne].
  - rewrite Heq in *. rewrite lookup_insert_eq.
    eexists; split; [reflexivity|]. simpl. simplify_eq. lia.
  - rewrite lookup_insert_ne by done. eauto with lia.
Qed.

(** C3: the stored [last_seen] of an instance never decreases, whatever
    heartbeats arrive and in whatever order.  A heartbeat is accepted only
    with a timestamp that is at least the stored [last_seen], and one with an
    older timestamp leaves the store as it is. *)
Theorem last_seen_never_decreases (hs : list Heartbeat)
    (store : gmap N ServiceInstance) (k : N) (i : ServiceInstance) :
  store !! k = Some i ->
  (exists i', apply_heartbeats hs store !! k = Some i'
              /\ last_seen i <= last_seen i')
  /\ (forall h, beat_id h = k -> (update_heartbeat h store).1 = inr true ->
        last_seen i <= beat_timestamp h)
  /\ (forall h, beat_id h = k -> beat_timestamp h < last_seen i ->
        (update_heartbeat h store).2 = store).
Proof.
  intros Hk. split; [|split].
  - revert store i Hk. unfold apply_heartbeats.
    induction hs as [|h hs IH]; intros store i Hk; simpl; [eauto with lia|].
    destruct (update_heartbeat_last_seen h store k i Hk) as (j & Hj & Hle).
    destruct (IH _ _ Hj) as (i' & Hi' & Hle'). eauto with lia.
  - intros h <-. unfold update_heartbeat. rewrite Hk.
    repeat case_bool_decide; simpl; intros; simplify_eq; done.
  - intros h <- Hlt. unfold update_heartbeat. rewrite Hk.
    repeat case_bool_decide; simpl; try done; lia.
Qed.

End store.

(** ** Identifiers of incoming requests *)

Section incoming.
Import correlation_middleware spec.




Lemma get_from_headers_draws (self : CorrelationIdMiddleware)
    (request : Request) (names : list string) (w : World) :
  w_draws (get_from_headers self request names w).2 = w_draws w.
Proof.
  induction names as [|n rest IH]; simpl; [reflexivity|].
  repeat case_match; simpl; done.
Qed.

Lemma dispatch_run (self : CorrelationIdMiddleware) (request : Request)
    (call_next : App) (w : World) :
  let cid := chosen self request w in
  let answer :=
    call_next (mkRequest (req_path request) (req_headers request) (Some cid))
      (entered self request w) in
  dispatch self request call_next w = (echoed self cid answer.1, answer.2).
Proof.
  cbv zeta. unfold dispatch, entered, chosen.
  pose proof (get_from_headers_draws self request CORRELATION_ID_HEADERS w)
    as Hd.
  unfold _get_correlation_id_from_request in *.
  destruct (get_from_headers self request CORRELATION_ID_HEADERS w)
    as [[c|] w1]; simpl in *.
  - destruct (call_next _ _) as [[e|response] w2]; reflexivity.
  - rewrite Hd. destruct (call_next _ _) as [[e|response] w2]; reflexivity.
Qed.

(** C4 (amended): a middleware that validates (the default) accepts the
    identifier a request supplies exactly when it is not empty, at most 128
    characters long and made of letters, digits, [-], [_] and [.]; a
    middleware built with [validate=False] accepts every identifier supplied.
    An identifier that is not accepted is replaced by the next one of the
    generator.  Either way the request goes on to the application with the
    identifier in the context and in its state, and the response is the
    application's, with its status and body. *)
Theorem identifier_accepted_iff_acceptable_when_validating
    (self : CorrelationIdMiddleware) (request : Request) (call_next : App)
    (w : World) :
  let found := (_get_correlation_id_from_request self request w).1 in
  let cid := chosen self request w in
  let request' :=
    mkRequest (req_path request) (req_headers request) (Some cid) in
  let answer := call_next request' (entered self request w) in
  (forall c, found = Some c <->
     supplied request = Some c /\ (validate self = true -> acceptable c))
  /\ cid = match found with
           | Some c => c
           | None => generator self (w_draws w)
           end
  /\ correlation_id_ctx (entered self request w) = Some cid
  /\ dispatch self request call_next w = (echoed self cid answer.1, answer.2)
  /\ match answer.1 with
     | inr response =>
         exists response',
           (dispatch self request call_next w).1 = inr response'
           /\ resp_status response' = resp_status response
           /\ resp_body response' = resp_body response
     | inl e => (dispatch self request call_next w).1 = inl e
     end.
Proof.
  cbv zeta. split; [|split; [|split; [|split]]].
  - intros c. unfold _get_correlation_id_from_request, supplied.
    rewrite get_from_headers_spec.
    destruct (first_supplied _ _) as [c'|]; [|split; [done|intros [? _]; done]].
    destruct (validate self); simpl.
    + destruct (_is_valid_correlation_id c') eqn:Hv; simpl.
      * split; [intros [= <-]|intros [[= <-] _]; done].
        split; [done|]. intros _. by apply is_valid_acceptable.
      * split; [done|]. intros [[= <-] Ha].
        apply is_valid_acceptable in Ha; [congruence|done].
    + split; [intros [= <-]; split; done|intros [[= <-] _]; done].
  - unfold chosen. by destruct (_get_correlation_id_from_request _ _ _).1.
  - unfold entered. by destruct (_get_correlation_id_from_request _ _ _).
  - apply dispatch_run.
  - rewrite dispatch_run. cbv zeta. simpl.
    destruct (call_next _ _).1 as [e|response]; simpl; eauto.
Qed.

End incoming.

(** ** Identifiers of incoming and outgoing requests *)

Section outgoing.
Import ai_workflow_client observe.
Context `{L : PyLib} (E : Env).




End outgoing.

(** ** The properties at sample inputs *)

Section samples.
Import ai_workflow_client observe fixtures.

(** C1, refuted as stated: a refused connection and a status 500 from the
    target are two causes of failure, and [call_service] raises an exception
    of the same class, [AIWorkflowError], for both. *)
Lemma refused_connection_and_error_status_share_a_class :
  let outcome a :=
    (call_service (L:=sample.lib) (registry_and_target a) "dup-svc" "tutor" []
       state).1 in
  outcome refused =
    inl (mkExn AIWorkflowError
           "Network error calling dup-svc/tutor: Cannot connect to host")
  /\ outcome server_error =
       inl (mkExn AIWorkflowError
              "Service call failed: dup-svc/tutor returned 500: internal error").
Proof. split; vm_compute; reflexivity. Qed.

(** C1 at a sample input: the registry lists [dup-svc] and the target refuses
    the connection. *)
Lemma call_service_classification_witness :
  (call_service (L:=sample.lib) (registry_and_target refused) "dup-svc"
     "tutor" [] state).1 =
    inl (mkExn AIWorkflowError
           "Network error calling dup-svc/tutor: Cannot connect to host").
Proof.
  refine (proj1 (proj2
    (proj1
       (call_service_classifies_by_client_error (L:=sample.lib)
          (registry_and_target refused) "dup-svc" "tutor" [] state)
       (PStr "http://localhost:9002") _))
    (mkExn ClientConnectionError "Cannot connect to host") _ _);
    vm_compute; reflexivity.
Defined.

(** C2 at a sample input: the registry lists no [nonexistent-service]. *)
Lemma unresolved_service_witness :
  (call_service (L:=sample.lib) (registry_and_target refused)
     "nonexistent-service" "tutor" [] state).1 =
    inl (mkExn ServiceDiscoveryError "Service 'nonexistent-service' not found")
  /\ calls_made
       (call_service (L:=sample.lib) (registry_and_target refused)
          "nonexistent-service" "tutor" []) state
     = [listing_call (registry_and_target refused) state].
Proof.
  pose proof (unresolved_service_fails_before_any_call_to_it (L:=sample.lib)
    (registry_and_target refused) "nonexistent-service" "tutor" [] state
    agents_response agents_items) as H.
  cbv zeta in H.
  destruct H as (H1 & H2 & _).
  - reflexivity.
  - reflexivity.
  - repeat constructor; discriminate.
  - split; [exact H1 | exact H2].
Defined.

(** C5 at a sample input: two instances are listed under [dup-svc], and both
    resolutions give the endpoint of the first. *)
Lemma endpoint_resolution_witness :
  let E := registry_and_target refused in
  let first := _get_service_endpoint E "dup-svc" registered_state in
  (_get_service_endpoint E "dup-svc" first.2).1 = first.1
  /\ first.1 = inr (PStr "http://localhost:9002").
Proof.
  cbv zeta.
  pose proof (endpoint_resolution_is_deterministic
    (registry_and_target refused) "dup-svc" registered_state agents_response)
    as H.
  cbv zeta in H. destruct H as [H1 H2].
  - simpl. eauto.
  - reflexivity.
  - reflexivity.
  - split; [exact H1|]. exact (H2 agents_items eq_refl).
Defined.

(** C3 at a sample input: heartbeats of times 150, 120 and 90 for an instance
    last seen at 100. *)
Lemma last_seen_witness :
  exists i', RegistryStore.apply_heartbeats beats store !! 1%N = Some i'
             /\ 100 <= RegistryStore.last_seen i'.
Proof.
  exact (proj1 (last_seen_never_decreases beats store 1%N instance eq_refl)).
Defined.

(** C4, refuted as stated: a middleware built with [validate=False] accepts
    an identifier with characters outside the restricted set. *)
Lemma unvalidated_identifier_is_accepted :
  let request := request_with "X-Correlation-ID" "invalid@id#with$special%chars" in
  spec.supplied request = Some "invalid@id#with$special%chars"
  /\ (correlation_middleware._get_correlation_id_from_request trusting request
        world).1 = Some "invalid@id#with$special%chars"
  /\ ~ spec.acceptable "invalid@id#with$special%chars".
Proof.
  cbv zeta. split; [reflexivity|]. split; [reflexivity|].
  intros H. apply is_valid_acceptable in H. discriminate H.
Qed.

(** C4 at a sample input: the identifier of the test suite, in
    [X-Request-ID]. *)
Lemma accepted_identifier_witness :
  spec.supplied (request_with "X-Request-ID" "test-correlation-12345")
    = Some "test-correlation-12345"
  /\ (correlation_middleware.validate validating = true ->
      spec.acceptable "test-correlation-12345").
Proof.
  apply (proj1 (identifier_accepted_iff_acceptable_when_validating validating
                  (request_with "X-Request-ID" "test-correlation-12345")
                  health world)).
  reflexivity.
Defined.

(** C6, refuted as stated: with an empty name and an empty endpoint,
    [register] raises [RegistrationError] when the registry answers 400, and
    it succeeds and marks the client registered when the registry answers
    201; it never raises a [ValidationError] of its own. *)
Lemma blank_registration_is_forwarded :
  (register (L:=sample.lib) (answering bad_request) blank_state).1 =
    inl (mkExn RegistrationError
           "Registration failed with status 400: name must not be empty")
  /\ is_registered
       (self (register (L:=sample.lib) (answering (created "" ""))
                blank_state).2) = true.
Proof. split; vm_compute; reflexivity. Qed.

(** C6 at a sample input: the registry answers 400 to a registration without
    name and endpoint. *)
Lemma rejected_registration_witness :
  (register (L:=sample.lib) (answering bad_request) blank_state).1 =
    inl (mkExn RegistrationError
           "Registration failed with status 400: name must not be empty")
  /\ agent_id (self (register (L:=sample.lib) (answering bad_request)
                       blank_state).2) = None
  /\ is_registered (self (register (L:=sample.lib) (answering bad_request)
                            blank_state).2) = false.
Proof.
  refine (proj2 (proj2
    (register_forwards_and_rejection_raises (L:=sample.lib)
       (answering bad_request) blank_state))
    (mkClientResponse 400 not_json (inr "name must not be empty"))
    "name must not be empty" _ _ _ _); try reflexivity; discriminate.
Defined.





(** C9 at a sample input: a client that has not registered. *)
Lemma heartbeat_requires_registration_witness :
  send_heartbeat (L:=sample.lib) (answering bad_request) state =
    (inl (mkExn HeartbeatError
            "Service not registered - cannot send heartbeat"), state)
  /\ start_heartbeat state =
       (inl (mkExn HeartbeatError
               "Service must be registered before starting heartbeat"), state).
Proof.
  pose proof (heartbeat_requires_registration (L:=sample.lib)
                (answering bad_request) state) as [H1 H2].
  split; [exact (H1 eq_refl) | exact (H2 eq_refl)].
Defined.



End samples.

(** * Further properties of the client, the middleware and the service *)

Section more_runs.
Import ai_workflow_client observe behaviour.
Context `{L : PyLib} (E : Env).

Lemma names_of_not_client_error (l : list PyVal) (e : Exn) :
  names_of l = inl e -> exn_class e = KeyError \/ exn_class e = TypeError.
Proof.
  revert e. induction l as [|a l IH]; intros e; simpl; [discriminate|].
  destruct (py_getitem a "name") as [e'|n] eqn:Hn.
  - intros [= <-]. unfold py_getitem in Hn.
    repeat case_match; simplify_eq; simpl; eauto.
  - destruct (names_of l); intros; simplify_eq. eauto.
Qed.

Lemma find_endpoint_error (service_name : string) (l : list PyVal) (e : Exn) :
  find_endpoint service_name l = inl e ->
  exn_class e = ServiceDiscoveryError \/ exn_class e = AttributeError.
Proof.
  induction l as [|a l IH]; simpl; [intros [= <-]; eauto|].
  destruct (py_get a "name" PNone) as [e'|n] eqn:Hn.
  - intros [= <-]. unfold py_get in Hn. repeat case_match; simplify_eq; eauto.
  - destruct (py_eq_str n service_name); [|exact IH].
    unfold py_get. repeat case_match; intros; simplify_eq; eauto.
Qed.

Lemma discover_services_run (capability : string) (s : St) :
  discover_services E capability s =
    let c := discover_call E s capability in
    (discovered (reply E s c), called c s).
Proof.
  unfold discover_services, discover_call, sent_headers, reply, called,
    discovered, surfaced, with_session.
  run_monad. destruct s as [[cfg aid sess task reg] w].
  split_cases; simpl; try reflexivity; try congruence.
  all: try match goal with
       | H : names_of _ = inl ?e |- _ =>
           apply names_of_not_client_error in H;
           destruct e as [cl m]; simpl in H; destruct H; subst cl;
           discriminate
       | H : py_get _ _ _ = inl ?e, Hi : isinstance ?e ClientError = true
         |- _ =>
           unfold py_get in H; repeat case_match; simplify_eq; discriminate Hi
       | H : py_iter _ = inl ?e, Hi : isinstance ?e ClientError = true
         |- _ =>
           unfold py_iter in H; repeat case_match; simplify_eq;
           discriminate Hi
       end.
Qed.

End more_runs.

(** ** Heartbeats *)

Section heartbeats.
Import ai_workflow_client observe behaviour.
Context `{L : PyLib} (E : Env).

Lemma serializing_heartbeat (s : St) (u : N) :
  agent_id (self s) = Some u -> serializing E ->
  send_heartbeat E s = (inl not_serializable, called (heartbeat_call E s u) s).
Proof.
  intros Hu HE. rewrite (send_heartbeat_run E s u Hu). cbv zeta.
  unfold reply.
  by rewrite (HE (List.length (w_calls (world s))) (heartbeat_call E s u) _
                eq_refl eq_refl).
Qed.

Lemma sleep_run (seconds : Z) (s : St) :
  sleep_cancelled E (w_sleeps (world s)) = false ->
  sleep E seconds s =
    (inr tt,
     mkSt (self s)
       (set_now (w_now (world s) + Z.max 0 seconds * 1000000)
          (add_sleep (world s)))).
Proof. unfold sleep. intros ->. reflexivity. Qed.

Lemma heartbeat_pass (s : St) :
  raises_only_exceptions E ->
  exists s',
    heartbeat_loop_body E s = (None, s')
    /\ w_sleeps (world s') = S (w_sleeps (world s))
    /\ agent_id (self s') = agent_id (self s)
    /\ List.length (w_calls (world s')) =
         match agent_id (self s) with
         | Some _ => S (List.length (w_calls (world s)))
         | None => List.length (w_calls (world s))
         end.
Proof.
  intros (Hsl & Hraise & Htext).
  pose proof (heartbeat_loop_body_cases E s) as Hb. unfold tick in Hb.
  rewrite bind_run, sleep_run in Hb by apply Hsl.
  set (s1 := mkSt (self s) _) in Hb.
  destruct (agent_id (self s)) as [u|] eqn:Hu.
  - assert (Hu1 : agent_id (self s1) = Some u) by done.
    rewrite (send_heartbeat_run E s1 u Hu1) in Hb. cbv zeta in Hb.
    assert (Hw : agent_id (with_session (self s)) = Some u).
    { destruct s as [[? ? [] ? ?] ?]; done. }
    destruct (reply E s1 (heartbeat_call E s1 u)) as [e|r] eqn:Ha.
    + pose proof (Hraise _ _ _ Ha) as Hx.
      pose proof (exception_not_cancellation _ Hx) as Hnc.
      destruct (isinstance e ClientError); simpl in Hb;
        [|rewrite Hnc, Hx in Hb]; eexists; (split; [exact Hb|]); simpl;
        rewrite ?length_app; simpl; repeat split; try done; lia.
    + case_bool_decide; simpl in Hb.
      * eexists; split; [exact Hb|]; simpl.
        rewrite ?length_app; simpl; repeat split; try done; lia.
      * destruct (text r) as [e|t] eqn:Ht.
        -- pose proof (Htext _ _ _ _ Ha Ht) as Hx.
           pose proof (exception_not_cancellation _ Hx) as Hnc.
           destruct (isinstance e ClientError); simpl in Hb;
             [|rewrite Hnc, Hx in Hb]; eexists; (split; [exact Hb|]); simpl;
             rewrite ?length_app; simpl; repeat split; try done; lia.
        -- eexists; split; [exact Hb|]; simpl.
           rewrite ?length_app; simpl; repeat split; try done; lia.
  - assert (Hrun : send_heartbeat E s1 =
                     (inl (mkExn HeartbeatError
                             "Service not registered - cannot send heartbeat"),
                      s1)).
    { unfold s1. destruct s as [[cfg aid sess task reg] w].
      simpl in Hu. subst aid. reflexivity. }
    rewrite Hrun in Hb. simpl in Hb.
    eexists; split; [exact Hb|]. simpl. by rewrite Hu.
Qed.

(** X1: the heartbeat that [send_heartbeat] posts holds its timestamp as a
    [datetime] object, which [json.dumps] does not serialise.  With a session
    that serialises the [json] argument of a request as aiohttp does, the
    heartbeat of a client with an identifier is never answered:
    [send_heartbeat] makes its one call and the [TypeError] of [json.dumps]
    leaves it, with nothing logged and the client as it was.  In the
    heartbeat loop, a pass whose sleep is not cancelled logs that error and
    the loop goes on. *)
Theorem heartbeat_timestamp_is_not_serializable (s : St) (u : N) :
  let c := heartbeat_call E s u in
  let after := send_heartbeat E s in
  let pass := heartbeat_loop_body E s in
  agent_id (self s) = Some u ->
  serializing E ->
  (exists items,
     call_json c = Some (PDict items)
     /\ dict_lookup "timestamp" items = Some (PDatetime (w_now (world s))))
  /\ calls_made (send_heartbeat E) s = [c]
  /\ after.1 = inl not_serializable
  /\ isinstance not_serializable ClientError = false
  /\ w_logs (world after.2) = w_logs (world s)
  /\ agent_id (self after.2) = Some u
  /\ _registered (self after.2) = _registered (self s)
  /\ (sleep_cancelled E (w_sleeps (world s)) = false ->
      pass.1 = None
      /\ w_logs (world pass.2) =
           (w_logs (world s)
            ++ [mkLog ERROR
                  ("Error in heartbeat loop: "
                   ++ "Object of type datetime is not JSON serializable")])%list).
Proof.
  cbv zeta. intros Hu HE.
  split; [eexists; split; reflexivity|].
  split; [by rewrite send_heartbeat_calls_made, Hu|].
  rewrite (serializing_heartbeat s u Hu HE).
  split; [done|]. split; [done|]. split; [done|].
  split; [by destruct s as [[? ? [] ? ?] ?]|].
  split; [by destruct s as [[? ? [] ? ?] ?]|].
  intros Hsl.
  pose proof (heartbeat_loop_body_cases E s) as Hb. unfold tick in Hb.
  rewrite bind_run, sleep_run in Hb by exact Hsl.
  rewrite (serializing_heartbeat _ u) in Hb by done.
  simpl in Hb. rewrite Hb. done.
Qed.

(** X2: while nothing cancels the task and the network fails with
    instances of [Exception] only, the heartbeat loop is still running after
    any number of passes, whatever the network answers; each pass has started
    one sleep, and for a client with an identifier each pass has posted one
    heartbeat. *)
Theorem uncancelled_loop_keeps_beating (passes : nat) (s : St) :
  raises_only_exceptions E ->
  let after := heartbeat_loop E passes s in
  after.1 = None
  /\ w_sleeps (world after.2) = (w_sleeps (world s) + passes)%nat
  /\ (is_Some (agent_id (self s)) ->
      List.length (w_calls (world after.2)) =
        (List.length (w_calls (world s)) + passes)%nat).
Proof.
  intros HE. cbv zeta. revert s.
  induction passes as [|k IH]; intros s.
  - simpl. repeat split; intros; lia.
  - rewrite heartbeat_loop_S.
    destruct (heartbeat_pass s HE) as (s' & Hb & Hsl & Hid & Hcalls).
    rewrite Hb. destruct (IH s') as (H1 & H2 & H3).
    split; [exact H1|]. split; [rewrite H2, Hsl; lia|].
    intros [u Hu]. rewrite H3 by (rewrite Hid, Hu; eauto).
    rewrite Hcalls, Hu. lia.
Qed.

End heartbeats.

(** ** The client object across its methods *)

Section client_state.
Import ai_workflow_client observe behaviour.
Context `{L : PyLib} (E : Env).

Lemma keeps_refl (c : AIWorkflowClient) : keeps c c.
Proof. repeat split; done. Qed.

Lemma keeps_with_session (c : AIWorkflowClient) : keeps c (with_session c).
Proof. destruct c as [? ? [] ? ?]; repeat split; simpl; done. Qed.

Lemma sound_with_session (c : AIWorkflowClient) :
  sound c -> sound (with_session c).
Proof. destruct c as [? ? [] ? ?]; done. Qed.

Lemma register_state (s : St) :
  self (register E s).2 = with_session (self s)
  \/ exists rr u, (register E s).1 = inr rr
       /\ self (register E s).2 =
            mkClient (config (self s)) (Some u)
              (session (with_session (self s))) (heartbeat_task (self s))
              true.
Proof.
  rewrite register_run. cbv zeta.
  repeat case_match; simpl; eauto.
Qed.

Lemma send_heartbeat_state (s : St) :
  self (send_heartbeat E s).2 = with_session (self s)
  \/ self (send_heartbeat E s).2 = self s.
Proof.
  destruct (agent_id (self s)) as [u|] eqn:Hu.
  - rewrite (send_heartbeat_run E s u Hu). cbv zeta.
    repeat case_match; simpl; eauto.
  - right. destruct s as [[cfg aid sess task reg] w].
    simpl in Hu. subst aid. reflexivity.
Qed.

Lemma call_service_state (service_name method : string)
    (payload : list (string * PyVal)) (s : St) :
  self (call_service E service_name method payload s).2
    = with_session (self s).
Proof.
  rewrite call_service_run. cbv zeta.
  destruct (resolve _ _); simpl; [done|].
  by destruct s as [[? ? [] ? ?] ?].
Qed.

(** X3: the methods of the client keep the client object consistent.  None
    of them changes the configuration, replaces a session that is there, or
    takes back the identifier or the mark of registration; and a client that
    is marked registered has an identifier, from its creation on and after
    every method. *)
Theorem methods_keep_the_client_consistent (s : St)
    (capability service_name method : string)
    (payload : list (string * PyVal)) :
  let preserved (s' : St) :=
    keeps (self s) (self s') /\ (sound (self s) -> sound (self s')) in
  (forall cfg, sound (init cfg))
  /\ preserved (start s).2
  /\ preserved (register E s).2
  /\ preserved (send_heartbeat E s).2
  /\ preserved (start_heartbeat s).2
  /\ preserved (discover_services E capability s).2
  /\ preserved (call_service E service_name method payload s).2.
Proof.
  cbv zeta.
  assert (Hw : keeps (self s) (with_session (self s))
               /\ (sound (self s) -> sound (with_session (self s)))).
  { split; [apply keeps_with_session|apply sound_with_session]. }
  split; [intros cfg; unfold sound; simpl; done|].
  split; [|split; [|split; [|split; [|split]]]].
  - assert (Hs : (start s).2 = mkSt (with_session (self s)) (world s))
      by (destruct s as [[? ? [] ? ?] ?]; reflexivity).
    rewrite Hs. exact Hw.
  - destruct (register_state s) as [->|(rr & u & _ & ->)]; [done|].
    split; [|intros _ _; simpl; eauto].
    destruct s as [[? ? [] ? ?] ?]; repeat split; simpl; eauto.
    intros [? ?]; done.
  - destruct (send_heartbeat_state s) as [-> | ->]; [done|].
    split; [apply keeps_refl|done].
  - destruct s as [[cfg aid sess task []] w]; simpl;
      (split; [repeat split; done|done]).
  - rewrite discover_services_run. exact Hw.
  - rewrite call_service_state. exact Hw.
Qed.

(** X4: after a successful [register] the heartbeat can start:
    [start_heartbeat] returns its task and records it, and [send_heartbeat]
    makes one call, to the heartbeat address of the identifier that the
    registry returned. *)
Theorem registered_client_can_heartbeat (s : St) (rr : RegistrationResponse) :
  let s' := (register E s).2 in
  (register E s).1 = inr rr ->
  exists u,
    UUID_of_str (id rr) = Some u
    /\ agent_id (self s') = Some u
    /\ (start_heartbeat s').1 = inr HeartbeatLoopTask
    /\ heartbeat_task (self (start_heartbeat s').2) = Some HeartbeatLoopTask
    /\ calls_made (send_heartbeat E) s' = [heartbeat_call E s' u]
    /\ call_url (heartbeat_call E s' u) =
         registry_endpoint (config (self s)) ++ "/registry/agents/"
         ++ str_of_UUID u ++ "/heartbeat".
Proof.
  cbv zeta. rewrite register_run. cbv zeta.
  destruct (reply E s (register_call E s)) as [e|r]; [done|].
  destruct (_ || _); [|destruct (text r); done].
  destruct (decode r) as [e|[rr' u]] eqn:Hd; [done|].
  simpl. intros [= ->]. exists u.
  assert (Hu : UUID_of_str (id rr) = Some u).
  { unfold decode in Hd. repeat case_match; simplify_eq. done. }
  repeat split; try done.
  rewrite send_heartbeat_calls_made. done.
Qed.

End client_state.

(** ** Discovery and the registry's failures *)

Section discovery.
Import ai_workflow_client observe behaviour.
Context `{L : PyLib} (E : Env).

Lemma names_of_listing (l : list PyVal)
    (agents : list (list (string * PyVal))) :
  mapM as_items l = Some agents ->
  match names_in agents with
  | Some ns => names_of l = inr ns
  | None => names_of l = inl (mkExn KeyError "'name'")
  end.
Proof.
  revert agents. induction l as [|a l IH]; intros agents Hm.
  - injection Hm as <-. reflexivity.
  - simpl in Hm. destruct a; simpl in Hm; try discriminate.
    destruct (mapM as_items l) as [rest|] eqn:Hrest; simpl in Hm;
      [|discriminate].
    injection Hm as <-. specialize (IH rest eq_refl).
    unfold names_in in *. simpl.
    destruct (dict_lookup "name" items) as [n|]; simpl; [|reflexivity].
    destruct (mapM (dict_lookup "name") rest) as [ns|]; simpl;
      by rewrite IH.
Qed.

(** X5: on a listing, [discover_services] asks the registry once, with the
    capability as the query parameter, and returns the names of the listed
    agents in the order of the listing: the empty list, and no error, when
    nothing is listed.  An agent without a name makes it raise [KeyError]. *)
Theorem discover_services_returns_names_in_order (capability : string)
    (s : St) (r : ClientResponse) (agents : list (list (string * PyVal))) :
  let c := discover_call E s capability in
  let result := (discover_services E capability s).1 in
  reply E s c = Responds r ->
  listing r = Some agents ->
  calls_made (discover_services E capability) s = [c]
  /\ call_method c = GET
  /\ call_params c = {["capability" := capability]}
  /\ match names_in agents with
     | Some ns => result = inr ns
     | None => result = inl (mkExn KeyError "'name'")
     end
  /\ (agents = [] -> result = inr []).
Proof.
  cbv zeta. intros Hr Hl.
  split; [apply calls_made_app; by rewrite discover_services_run|].
  split; [done|]. split; [done|].
  rewrite discover_services_run. cbv zeta. rewrite Hr. simpl.
  unfold listing in Hl. case_bool_decide; [|done].
  destruct (json r) as [e|[]]; try done. simpl.
  destruct (dict_lookup "agents" items) as [[]|] eqn:Ha; try done; simpl.
  - pose proof (names_of_listing _ _ Hl) as Hn.
    split; [exact Hn|]. intros ->. exact Hn.
  - injection Hl as <-. done.
Qed.

(** X6: when the registry does not give a listing, [discover_services]
    raises [ServiceDiscoveryError]: for a status other than 200, with the
    status and the body in the message, and for an [aiohttp.ClientError].  An
    exception of another class, such as a timeout, leaves it as it is. *)
Theorem discover_services_failures_are_discovery_errors
    (capability : string) (s : St) :
  let answer := reply E s (discover_call E s capability) in
  let result := (discover_services E capability s).1 in
  (forall r t, answer = Responds r -> status r <> 200 -> text r = inr t ->
     result = inl (mkExn ServiceDiscoveryError
                     ("Service discovery failed with status "
                      ++ pretty (status r) ++ ": " ++ t)))
  /\ (forall e, answer = Raises e ->
        result =
          inl (if isinstance e ClientError
               then mkExn ServiceDiscoveryError
                      ("Network error during service discovery: "
                       ++ exn_msg e)
               else e)).
Proof.
  cbv zeta. rewrite discover_services_run. cbv zeta. split.
  - intros r t -> Hs Ht. simpl. by rewrite bool_decide_eq_false_2, Ht.
  - intros e ->. reflexivity.
Qed.

(** X7: a failure of the listing reaches the caller of [call_service]
    without a call to any target.  A status other than 200 from the registry
    raises [ServiceDiscoveryError]; an exception raised by the listing request
    itself leaves [call_service] as it is, an [aiohttp.ClientError] included:
    the listing is requested outside of the handler that turns such errors
    into [AIWorkflowError]. *)
Theorem registry_failure_reaches_the_caller_unwrapped
    (service_name method : string) (payload : list (string * PyVal))
    (s : St) :
  let c := listing_call E s in
  let answer := reply E s c in
  let result := (call_service E service_name method payload s).1 in
  (forall e, answer = Raises e ->
     result = inl e
     /\ calls_made (call_service E service_name method payload) s = [c])
  /\ (forall r t, answer = Responds r -> status r <> 200 -> text r = inr t ->
        result = inl (mkExn ServiceDiscoveryError
                        ("Failed to get service list: HTTP "
                         ++ pretty (status r) ++ " - " ++ t))
        /\ calls_made (call_service E service_name method payload) s = [c]).
Proof.
  cbv zeta. split.
  - intros e He. rewrite call_service_calls_made, call_service_run.
    cbv zeta. rewrite He. done.
  - intros r t Hr Hs Ht. rewrite call_service_calls_made, call_service_run.
    cbv zeta. rewrite Hr. simpl. by rewrite bool_decide_eq_false_2, Ht.
Qed.

Lemma sent_headers_authorization (cfg : ServiceConfig)
    (base : gmap string string) (w : World) :
  base !! "Authorization" = None ->
  sent_headers E cfg base w !! "Authorization" = bearer cfg.
Proof.
  intros Hb. unfold sent_headers, bearer, add_authorization,
    correlation_middleware.inject_correlation_id_header.
  assert (Hne : "X-Correlation-ID" <> "Authorization") by discriminate.
  assert (Hin : (if HAS_CORRELATION_SUPPORT E
                 then match
                        match @None string with
                        | Some c => Some c
                        | None => correlation_middleware.get_correlation_id w
                        end
                      with
                      | Some c =>
                          if bool_decide (c = "") then base
                          else <["X-Correlation-ID" := c]> base
                      | None => base
                      end
                 else base) !! "Authorization" = None).
  { repeat case_match; rewrite ?lookup_insert_ne by done; done. }
  destruct (auth_token cfg) as [t|]; [case_bool_decide|]; try done.
  by rewrite lookup_insert_eq.
Qed.

Lemma sent_headers_content_type (cfg : ServiceConfig)
    (base : gmap string string) (w : World) :
  sent_headers E cfg base w !! "Content-Type" = base !! "Content-Type".
Proof.
  unfold sent_headers, add_authorization,
    correlation_middleware.inject_correlation_id_header.
  repeat case_match; rewrite ?lookup_insert_ne by done; done.
Qed.

(** X8: every request of the client carries [Authorization: Bearer <token>]
    when the configuration has a token that is not empty, and no
    [Authorization] header otherwise; the requests with a JSON body
    (registration, heartbeat, service call) are marked
    [Content-Type: application/json], the listing and discovery requests carry
    no content type. *)
Theorem requests_carry_the_bearer_token (s : St)
    (capability service_name method : string)
    (payload : list (string * PyVal)) :
  let authorized c :=
    call_headers c !! "Authorization" = bearer (config (self s))
    /\ call_headers c !! "Content-Type" =
         match call_method c with
         | POST => Some "application/json"
         | GET => None
         end in
  Forall authorized (calls_made (register E) s)
  /\ Forall authorized (calls_made (send_heartbeat E) s)
  /\ Forall authorized (calls_made (discover_services E capability) s)
  /\ Forall authorized
       (calls_made (call_service E service_name method payload) s).
Proof.
  cbv zeta.
  assert (Hj : forall cfg w,
             sent_headers E cfg json_headers w !! "Authorization" = bearer cfg
             /\ sent_headers E cfg json_headers w !! "Content-Type"
                = Some "application/json").
  { intros. split; [by apply sent_headers_authorization|].
    by rewrite sent_headers_content_type. }
  assert (He : forall cfg w,
             sent_headers E cfg ∅ w !! "Authorization" = bearer cfg
             /\ sent_headers E cfg ∅ w !! "Content-Type" = None).
  { intros. split; [by apply sent_headers_authorization|].
    by rewrite sent_headers_content_type. }
  split; [|split; [|split]].
  - rewrite register_calls_made. repeat constructor; apply Hj.
  - rewrite send_heartbeat_calls_made.
    destruct (agent_id (self s)); repeat constructor; apply Hj.
  - erewrite calls_made_app by (by rewrite discover_services_run).
    repeat constructor; apply He.
  - rewrite call_service_calls_made.
    destruct (resolve _ _); repeat constructor; simpl; try apply He.
    + destruct s as [[? ? [] ? ?] ?]; apply Hj.
    + apply Hj.
Qed.

End discovery.

(** ** More on the correlation identifier *)

Section identifiers.
Import correlation_middleware spec.

(** X9: an identifier given to [inject_correlation_id_header] takes the
    place of the one in the context.  A given identifier that is not empty
    becomes the header, over whatever was there; a given empty identifier
    leaves the headers alone, and the context is not asked; with no identifier
    given and none in the context the headers are returned as they are.  No
    other header is touched. *)
Theorem given_identifier_overrides_the_context
    (headers : gmap string string) (w : World) :
  (forall given k, k <> "X-Correlation-ID" ->
     inject_correlation_id_header headers given w !! k = headers !! k)
  /\ (forall c, c <> "" ->
        inject_correlation_id_header headers (Some c) w !! "X-Correlation-ID"
        = Some c)
  /\ inject_correlation_id_header headers (Some "") w = headers
  /\ (correlation_id_ctx w = None ->
      inject_correlation_id_header headers None w = headers)
  /\ (forall c, correlation_id_ctx w = Some c -> c <> "" ->
        inject_correlation_id_header headers None w
        = <["X-Correlation-ID" := c]> headers).
Proof.
  unfold inject_correlation_id_header, get_correlation_id.
  split; [|split; [|split; [|split]]].
  - intros given k Hk. repeat case_match; try done;
      by rewrite lookup_insert_ne.
  - intros c Hc. rewrite bool_decide_eq_false_2 by done.
    apply lookup_insert_eq.
  - reflexivity.
  - intros ->. reflexivity.
  - intros c -> Hc. by rewrite bool_decide_eq_false_2.
Qed.

Lemma get_from_headers_world (self : CorrelationIdMiddleware)
    (request : Request) (names : list string) (w : World) :
  (get_from_headers self request names w).2 =
    match first_supplied (req_headers request) names with
    | Some c =>
        if validate self && negb (_is_valid_correlation_id c)
        then add_log WARNING ("Invalid correlation ID received: " ++ c) w
        else w
    | None => w
    end.
Proof.
  induction names as [|n rest IH]; simpl; [reflexivity|].
  destruct (headers_get n (req_headers request)) as [v|]; [|exact IH].
  case_bool_decide; [exact IH|].
  destruct (validate self && negb (_is_valid_correlation_id v)); reflexivity.
Qed.

Lemma first_supplied_none (hs : Headers) (names : list string) :
  Forall (fun n => headers_get n hs = None) names ->
  first_supplied hs names = None.
Proof. induction 1 as [|n l Hn _ IH]; simpl; [done|]. by rewrite Hn. Qed.

(** X10: the lookup of the identifier reads the five fixed header names and
    no other: a request that has none of them gets a generated identifier,
    also when it carries the middleware's own [header_name].  The lookup
    writes to the log only when it rejects an identifier, one warning that
    quotes the identifier as it was received. *)
Theorem lookup_reads_the_fixed_headers_and_logs_a_rejection
    (self : CorrelationIdMiddleware) (request : Request) (w : World) :
  let found := _get_correlation_id_from_request self request w in
  (Forall (fun n => headers_get n (req_headers request) = None)
     CORRELATION_ID_HEADERS ->
   found = (None, w)
   /\ chosen self request w = generator self (w_draws w))
  /\ (forall c, found.1 = Some c -> found.2 = w)
  /\ (forall c, supplied request = Some c -> found.1 = None ->
        found.2 =
          add_log WARNING ("Invalid correlation ID received: " ++ c) w).
Proof.
  cbv zeta. unfold chosen, _get_correlation_id_from_request, supplied.
  pose proof (get_from_headers_spec self request CORRELATION_ID_HEADERS w)
    as H1.
  pose proof (get_from_headers_world self request CORRELATION_ID_HEADERS w)
    as H2.
  destruct (get_from_headers self request CORRELATION_ID_HEADERS w)
    as [found w']. cbn [fst snd] in H1, H2 |- *. subst found w'.
  split; [|split].
  - intros Hn. by rewrite first_supplied_none.
  - intros c. destruct (first_supplied _ _); [|done].
    destruct (_ && _); done.
  - intros c ->. destruct (_ && _); done.
Qed.

(** X11: an identifier that passes [_is_valid_correlation_id] is between 1
    and 128 characters long and has only characters from [-] to [z] of the
    ASCII table: no control character, line break, space, or separator of
    header values can be in it. *)
Theorem valid_identifier_is_plain_text (correlation_id : string) :
  _is_valid_correlation_id correlation_id = true ->
  (1 <= String.length correlation_id <= 128)%nat
  /\ Forall (fun c => (45 <= nat_of_ascii c <= 122)%nat
                      /\ c <> ","%char /\ c <> ";"%char /\ c <> " "%char)
       (list_ascii_of_string correlation_id).
Proof.
  intros Hv. apply is_valid_acceptable in Hv as (Hne & Hlen & Hall).
  split.
  - destruct correlation_id; [done|simpl in *; lia].
  - eapply Forall_impl; [exact Hall|]. intros c Hc. unfold allowed_char in Hc.
    cbv zeta in Hc.
    assert (Hr : (45 <= nat_of_ascii c <= 122)%nat).
    { destruct Hc as [?|[?|[?|[->|[->| ->]]]]]; try lia; vm_compute; lia. }
    split; [exact Hr|].
    repeat split; intros ->; vm_compute in Hc;
      destruct Hc as [?|[?|[?|[?|[?|?]]]]]; first [lia | discriminate].
Qed.

(** X12: [LoggingFilter] keeps every record and gives it an identifier that
    is not empty: the one of the context, or [no-correlation-id] when the
    context holds none or an empty one.  After [set_correlation_id] with an
    identifier that is not empty, the records carry that identifier, and
    [get_correlation_id] returns it. *)
Theorem log_records_always_carry_an_identifier (record : PyLogRecord)
    (w : World) :
  let filtered := LoggingFilter_filter record w in
  filtered.1 = true
  /\ record_msg filtered.2 = record_msg record
  /\ (exists c, record_correlation_id filtered.2 = Some c /\ c <> "")
  /\ (correlation_id_ctx w = None \/ correlation_id_ctx w = Some "" ->
      record_correlation_id filtered.2 = Some "no-correlation-id")
  /\ (forall c, c <> "" ->
        get_correlation_id (set_correlation_id c w) = Some c
        /\ record_correlation_id
             (LoggingFilter_filter record (set_correlation_id c w)).2
           = Some c).
Proof.
  cbv zeta. unfold LoggingFilter_filter, get_correlation_id,
    set_correlation_id. simpl.
  split; [done|]. split; [done|]. split; [|split].
  - destruct (correlation_id_ctx w) as [c|]; [case_bool_decide|]; eauto.
  - intros [-> | ->]; reflexivity.
  - intros c Hc. by rewrite bool_decide_eq_false_2.
Qed.

End identifiers.

(** ** The example service *)

Section service.
Import ai_workflow_client observe behaviour ai_tutor_service.
Context `{L : PyLib} (E : Env).

(** X13: [generate_examples] returns the same three examples for every
    subject, the first one naming the subject: the examples that it adds for
    [math] and for [programming] are cut off again and never returned. *)
Theorem generate_examples_returns_the_three_general_examples
    (request : TutoringRequest) :
  generate_examples request =
    ["Example 1: A practical application of this concept in "
       ++ subject request;
     "Example 2: How this relates to everyday situations you might encounter";
     "Example 3: A step-by-step walkthrough of the process"].
Proof. unfold generate_examples. repeat case_bool_decide; reflexivity. Qed.

(** X14: the health check reports the registration of the client.  Without
    a client it reports [registered=False]; with a client that was not
    registered and has just run [register], it reports [registered=True]
    exactly when that [register] succeeded. *)
Theorem health_check_reports_the_registration (s : St) (w : World) :
  registered (health_check (mkService None w)) = false
  /\ (_registered (self s) = false ->
      (registered
         (health_check (mkService (Some (self (register E s).2)) w)) = true
       <-> exists rr, (register E s).1 = inr rr)).
Proof.
  split; [reflexivity|]. intros Hreg. unfold health_check, is_registered.
  simpl. rewrite register_run. cbv zeta.
  assert (Hw : _registered (with_session (self s)) = false).
  { destruct s as [[? ? [] ? ?] ?]; done. }
  repeat case_match; simpl; rewrite ?Hw;
    (split; [intros ?; try done; eauto | intros [rr ?]; done]).
Qed.

(** X15: the handler [discover_related_services] answers 503 without a
    call when the service has no client.  With a client it asks the registry
    for [education], [workflow] and [documentation] in this order and stops at
    the first discovery that fails: an [AIWorkflowError] (every
    [ServiceDiscoveryError] is one) becomes the answer 503 with the message of
    the error, any other exception leaves the handler.  When all three succeed
    it returns the three lists, and [total_services] is the sum of their
    lengths. *)
Theorem related_discovery_stops_at_the_first_failure
    (c : AIWorkflowClient) (w : World) :
  let s0 := mkSt c w in
  let c1 := discover_call E s0 "education" in
  let s1 := called c1 s0 in
  let c2 := discover_call E s1 "workflow" in
  let s2 := called c2 s1 in
  let c3 := discover_call E s2 "documentation" in
  let refusal e : Answer PyVal :=
    if isinstance e AIWorkflowError
    then Refuses (mkHTTPException 503
                    ("Service discovery failed: " ++ exn_msg e))
    else Fails e in
  let after := discover_related_services E (mkService (Some c) w) in
  let calls :=
    drop (List.length (w_calls w)) (w_calls (service_world after.2)) in
  discover_related_services E (mkService None w) =
    (Refuses (mkHTTPException 503 "Service not connected to registry"),
     mkService None w)
  /\ (forall m, refusal (mkExn ServiceDiscoveryError m) =
        Refuses (mkHTTPException 503 ("Service discovery failed: " ++ m)))
  /\ match discovered (reply E s0 c1) with
     | inl e => after.1 = refusal e /\ calls = [c1]
     | inr l1 =>
         match discovered (reply E s1 c2) with
         | inl e => after.1 = refusal e /\ calls = [c1; c2]
         | inr l2 =>
             match discovered (reply E s2 c3) with
             | inl e => after.1 = refusal e /\ calls = [c1; c2; c3]
             | inr l3 =>
                 calls = [c1; c2; c3]
                 /\ after.1 =
                      Returns
                        (PDict
                           [("discovered_services",
                             PDict [("education", PList l1);
                                    ("workflow", PList l2);
                                    ("documentation", PList l3)]);
                            ("total_services",
                             PInt (Z.of_nat (List.length l1)
                                   + Z.of_nat (List.length l2)
                                   + Z.of_nat (List.length l3)));
                            ("discovery_time", PStr "2024-01-01T12:00:00Z")])
             end
         end
     end.
Proof.
  cbv zeta. split; [reflexivity|]. split; [reflexivity|].
  unfold discover_related_services. simpl.
  rewrite bind_run, discover_services_run. cbv zeta.
  destruct (discovered (reply E (mkSt c w) _)) as [e|l1].
  { destruct (isinstance e AIWorkflowError); simpl;
      by rewrite drop_app_length. }
  rewrite bind_run, discover_services_run. cbv zeta.
  destruct (discovered (reply E (called _ (mkSt c w)) _)) as [e|l2].
  { destruct (isinstance e AIWorkflowError); simpl;
      by rewrite <- app_assoc, drop_app_length. }
  rewrite bind_run, discover_services_run. cbv zeta.
  destruct (discovered (reply E (called _ (called _ (mkSt c w))) _))
    as [e|l3].
  { destruct (isinstance e AIWorkflowError); simpl;
      by rewrite <- !app_assoc, drop_app_length. }
  simpl. by rewrite <- !app_assoc, drop_app_length.
Qed.

End service.

(** ** The further properties at sample inputs *)

Section more_samples.
Import ai_workflow_client observe behaviour fixtures fixtures2.

Lemma dumping_serializing (a : HttpOutcome) : serializing (dumping a).
Proof. intros n c j Hj Hs. simpl. by rewrite Hj, Hs. Qed.

(** X1 at a sample input: the registry would answer 200 to every request,
    and the heartbeat of the client with the identifier 7 ends with the
    [TypeError]. *)
Lemma unserializable_heartbeat_witness :
  let ok := Responds (mkClientResponse 200 (inr (PDict [])) (inr "")) in
  (send_heartbeat (L:=sample.lib) (dumping ok) registered_state).1
    = inl (mkExn TypeError "Object of type datetime is not JSON serializable")
  /\ (heartbeat_loop_body (L:=sample.lib) (dumping ok) registered_state).1
     = None.
Proof.
  cbv zeta.
  pose proof (heartbeat_timestamp_is_not_serializable (L:=sample.lib)
    (dumping (Responds (mkClientResponse 200 (inr (PDict [])) (inr ""))))
    registered_state 7 eq_refl (dumping_serializing _)) as H.
  cbv zeta in H. destruct H as (_ & _ & H1 & _ & _ & _ & _ & H2).
  split; [exact H1|]. exact (proj1 (H2 eq_refl)).
Defined.

Lemma timing_out_raises_only_exceptions : raises_only_exceptions timing_out.
Proof.
  split; [reflexivity|]. split.
  - intros n c e [= <-]. reflexivity.
  - intros n c r e H. discriminate H.
Qed.

(** X2 at a sample input: every call times out, and after five passes the
    loop of the registered client is running and has posted five
    heartbeats. *)
Lemma timed_out_loop_witness :
  (heartbeat_loop (L:=sample.lib) timing_out 5 registered_state).1 = None
  /\ List.length
       (w_calls
          (ai_workflow_client.world (heartbeat_loop (L:=sample.lib) timing_out 5
                    registered_state).2)) = 5%nat.
Proof.
  pose proof (uncancelled_loop_keeps_beating (L:=sample.lib) timing_out 5
    registered_state timing_out_raises_only_exceptions) as H.
  cbv zeta in H. destruct H as (H1 & _ & H3).
  split; [exact H1|]. apply H3. simpl. eauto.
Defined.

(** X3 at a sample input: the registered client stays marked and keeps its
    identifier over a heartbeat that the registry refuses. *)
Lemma consistent_client_witness :
  sound
    (self (send_heartbeat (L:=sample.lib) (answering bad_request)
             registered_state).2).
Proof.
  pose proof (methods_keep_the_client_consistent (L:=sample.lib)
    (answering bad_request) registered_state "education" "dup-svc" "tutor" [])
    as H.
  cbv zeta in H. destruct H as (_ & _ & _ & [_ H] & _).
  apply H. intros _. simpl. eauto.
Defined.

(** X4 at a sample input: the registry creates the registration, and the
    heartbeat goes to the address of the identifier in its answer. *)
Lemma heartbeat_after_registration_witness :
  let E := answering (created "ai-tutor-service" "http://localhost:3001") in
  let s' := (register (L:=sample.lib) E state).2 in
  exists u,
    agent_id (self s') = Some u
    /\ call_url (heartbeat_call (L:=sample.lib) E s' u) =
         "http://localhost:8080/registry/agents/"
         ++ "123e4567-e89b-12d3-a456-426614174000" ++ "/heartbeat".
Proof.
  cbv zeta.
  edestruct (registered_client_can_heartbeat (L:=sample.lib)
    (answering (created "ai-tutor-service" "http://localhost:3001")) state)
    as (u & Hu & Hid & _ & _ & _ & Hurl).
  - vm_compute. reflexivity.
  - exists u. split; [exact Hid|]. rewrite Hurl.
    vm_compute in Hu. injection Hu as <-. vm_compute. reflexivity.
Defined.

(** X5 at a sample input: the listing of three agents, two of them with the
    same name. *)
Lemma discovered_names_witness :
  (discover_services (answering agents) "tutoring" state).1
    = inr [PStr "svc-a"; PStr "dup-svc"; PStr "dup-svc"].
Proof.
  pose proof (discover_services_returns_names_in_order
    (answering agents) "tutoring" state agents_response agents_items
    eq_refl eq_refl) as H.
  cbv zeta in H. exact (proj1 (proj2 (proj2 (proj2 H)))).
Defined.

(** X5 at a second sample input: the second agent of the listing has no
    name. *)
Lemma nameless_agent_is_a_key_error :
  (discover_services (answering (Responds nameless_response))
     "tutoring" state).1 = inl (mkExn KeyError "'name'").
Proof. vm_compute. reflexivity. Qed.

(** X6 at a sample input: the registry answers 503 to the discovery. *)
Lemma failed_discovery_witness :
  (discover_services (answering unavailable) "tutoring"
     state).1 =
    inl (mkExn ServiceDiscoveryError
           "Service discovery failed with status 503: registry unavailable").
Proof.
  refine (proj1 (discover_services_failures_are_discovery_errors
                   (answering unavailable) "tutoring" state)
            (mkClientResponse 503 not_json (inr "registry unavailable"))
            "registry unavailable" _ _ _);
    [reflexivity|vm_compute; discriminate|reflexivity].
Defined.

(** X7 at a sample input: the connection to the registry is refused, and
    [call_service] raises the [ClientConnectionError] itself. *)
Lemma refused_listing_witness :
  (call_service (L:=sample.lib) (answering refused) "dup-svc" "tutor" []
     state).1 = inl (mkExn ClientConnectionError "Cannot connect to host")
  /\ calls_made
       (call_service (L:=sample.lib) (answering refused) "dup-svc" "tutor" [])
       state = [listing_call (answering refused) state].
Proof.
  exact (proj1 (registry_failure_reaches_the_caller_unwrapped
                  (answering refused) "dup-svc" "tutor" [] state)
           (mkExn ClientConnectionError "Cannot connect to host") eq_refl).
Defined.

(** X8 at a sample input: the client with the token [s3cret] registers. *)
Lemma bearer_token_witness :
  Forall (fun c => call_headers c !! "Authorization" = Some "Bearer s3cret")
    (calls_made (register (L:=sample.lib) (answering bad_request))
       token_state).
Proof.
  pose proof (requests_carry_the_bearer_token (L:=sample.lib)
    (answering bad_request) token_state "education" "dup-svc" "tutor" []) as H.
  cbv zeta in H. destruct H as [H _].
  eapply Forall_impl; [exact H|]. intros c [Hc _]. exact Hc.
Defined.

(** X9 at a sample input: the context holds [req-1], and [job-7] is given. *)
Lemma given_identifier_witness :
  correlation_middleware.inject_correlation_id_header json_headers
    (Some "job-7") traced_world !! "X-Correlation-ID" = Some "job-7".
Proof.
  refine (proj1 (proj2 (given_identifier_overrides_the_context json_headers
                          traced_world)) "job-7" _).
  discriminate.
Defined.

(** X10 at a sample input: a middleware whose [header_name] is [X-Trace] gets
    a request with that header only, and generates an identifier. *)
Lemma own_header_name_is_not_read_witness :
  let self :=
    correlation_middleware.mkMiddleware "X-Trace"
      (fun n => "generated-" ++ pretty (Z.of_nat n)) true in
  spec.chosen self (request_with "X-Trace" "abc-123") world = "generated-0".
Proof.
  cbv zeta.
  refine (proj2 (proj1 (lookup_reads_the_fixed_headers_and_logs_a_rejection
                          (correlation_middleware.mkMiddleware "X-Trace"
                             (fun n => "generated-" ++ pretty (Z.of_nat n))
                             true)
                          (request_with "X-Trace" "abc-123") world) _)).
  repeat constructor.
Defined.

(** X11 at a sample input: the identifier of the test suite. *)
Lemma plain_identifier_witness :
  (1 <= String.length "test-correlation-12345" <= 128)%nat.
Proof.
  exact (proj1 (valid_identifier_is_plain_text "test-correlation-12345"
                  eq_refl)).
Defined.

(** X12 at a sample input: a record that is logged while the context holds
    no identifier. *)
Lemma record_without_context_witness :
  correlation_middleware.record_correlation_id
    (correlation_middleware.LoggingFilter_filter
       (correlation_middleware.mkPyLogRecord "Heartbeat started" None)
       world).2 = Some "no-correlation-id".
Proof.
  refine (proj1 (proj2 (proj2 (proj2
    (log_records_always_carry_an_identifier
       (correlation_middleware.mkPyLogRecord "Heartbeat started" None)
       world)))) _).
  left. reflexivity.
Defined.

(** X14 at a sample input: the registry creates the registration, and the
    health check reports [registered=True]. *)
Lemma health_after_registration_witness :
  let E := answering (created "ai-tutor-service" "http://localhost:3001") in
  ai_tutor_service.registered
    (ai_tutor_service.health_check
       (ai_tutor_service.mkService
          (Some (self (register (L:=sample.lib) E state).2)) world)) = true.
Proof.
  cbv zeta.
  apply (proj2 (health_check_reports_the_registration (L:=sample.lib)
                  (answering (created "ai-tutor-service"
                                "http://localhost:3001")) state world)
           eq_refl).
  eexists. vm_compute. reflexivity.
Defined.

(** X15 at a sample input: the registry answers 503 to the first discovery,
    and the handler answers 503 after that one call. *)
Lemma related_discovery_witness :
  (ai_tutor_service.discover_related_services
     (answering unavailable)
     (ai_tutor_service.mkService (Some (init config)) world)).1 =
    ai_tutor_service.Refuses
      (ai_tutor_service.mkHTTPException 503
         ("Service discovery failed: "
          ++ "Service discovery failed with status 503: registry unavailable")).
Proof.
  pose proof (related_discovery_stops_at_the_first_failure
    (answering unavailable) (init config) world) as H.
  cbv zeta in H. destruct H as (_ & _ & H).
  exact (proj1 H).
Defined.

End more_samples.
